(** * SingularityDetector: classification of the proximity to a singular position

    A shallow embedding of [src/SingularityDetector.cpp] and
    [src/SingularityDetector.h].

    - a C++ [double] is a primitive IEEE 754 binary64 [float]; the only
      operations the component applies to doubles are the comparisons [<] and
      [>], which are [PrimFloat.ltb] (with [a > b] read as [b < a]);
    - [std::vector<double>] and [Eigen::VectorXd] are [list float]; [v[i]] is
      the list lookup [v !! i], and an index out of range (undefined behaviour
      in C++) makes the enclosing function return [None];
    - an [int] is a [Z] in the range of a 32-bit integer, a [size_t] a [Z]
      modulo [2^64], [std_msgs::UInt8::data] a [Z] modulo [2^8];
    - the members of the class are the fields of the record
      [SingularityDetector]; a method takes the object as [this] and returns
      the new object when it assigns a member;
    - [RTT::Logger] lines and the messages written to the output port are
      returned as lists, in the order they are emitted. *)

From Stdlib Require Import ZArith Bool Lia Floats.
From stdpp Require Import base option list.

#[local] Set Warnings "-inexact-float".

Local Open Scope Z_scope.

(** ** Doubles and their comparisons *)

Module FloatOrder.

(** Facts about [SFcompare], the specification of the comparisons of
    binary64 numbers, transported to the primitive operations through
    [ltb_spec], [leb_spec] and [eqb_spec]. *)

Lemma SFcompare_refl_not_Lt (a : spec_float) : SFcompare a a <> Some Lt.
Proof.
  destruct a as [s|s| |s m e]; simpl; try destruct s; try congruence;
    rewrite Z.compare_refl, ?Pos.compare_cont_refl; simpl; congruence.
Qed.

Lemma SFcompare_Eq_sym (a b : spec_float) :
  SFcompare a b = Some Eq -> SFcompare b a = Some Eq.
Proof.
  destruct a as [s|s| |s m e], b as [s'|s'| |s' m' e']; simpl;
    try destruct s; try destruct s'; try congruence;
    destruct (Z.compare_spec e e'); try congruence; subst;
    rewrite Z.compare_refl;
    change (Pos.compare_cont Eq m m') with (Pos.compare m m');
    change (Pos.compare_cont Eq m' m) with (Pos.compare m' m);
    destruct (Pos.compare_spec m m'); simpl; try congruence; subst;
    rewrite Pos.compare_refl; reflexivity.
Qed.

Lemma SFcompare_Eq_not_Lt (a b : spec_float) :
  SFcompare a b = Some Eq -> SFcompare b a <> Some Lt.
Proof. intros H; rewrite (SFcompare_Eq_sym _ _ H); congruence. Qed.

Ltac cmp_cases :=
  repeat match goal with
    | |- context [Z.compare ?x ?y] => destruct (Z.compare_spec x y)
    | H : context [Z.compare ?x ?y] |- _ => destruct (Z.compare_spec x y)
    | |- context [Pos.compare ?x ?y] => destruct (Pos.compare_spec x y)
    | H : context [Pos.compare ?x ?y] |- _ => destruct (Pos.compare_spec x y)
    end.

Ltac sf_cases a b c :=
  destruct a as [[]|[]| |[] ? ?], b as [[]|[]| |[] ? ?], c as [[]|[]| |[] ? ?];
  simpl; try congruence; try (intros [?|?]; congruence);
  repeat match goal with
    | |- context [Pos.compare_cont Eq ?x ?y] =>
        change (Pos.compare_cont Eq x y) with (Pos.compare x y)
    end.

Lemma SFcompare_Lt_Le_trans (a b c : spec_float) :
  SFcompare a b = Some Lt ->
  SFcompare b c = Some Lt \/ SFcompare b c = Some Eq ->
  SFcompare a c = Some Lt.
Proof.
  sf_cases a b c; intros H1 [H2|H2]; revert H1 H2;
    cmp_cases; simpl; intros; subst; try congruence; try lia.
Qed.

Lemma SFcompare_Le_Lt_trans (a b c : spec_float) :
  SFcompare a b = Some Lt \/ SFcompare a b = Some Eq ->
  SFcompare b c = Some Lt ->
  SFcompare a c = Some Lt.
Proof.
  sf_cases a b c; intros [H1|H1] H2; revert H1 H2;
    cmp_cases; simpl; intros; subst; try congruence; try lia.
Qed.

Lemma SFcompare_Eq_trans (a b c : spec_float) :
  SFcompare a b = Some Eq -> SFcompare b c = Some Eq ->
  SFcompare a c = Some Eq.
Proof.
  sf_cases a b c; cmp_cases; simpl; intros; subst; try congruence; try lia;
    rewrite ?Pos.compare_refl in *; congruence.
Qed.

(** A number that is comparable with another one is not a NaN, and equal to
    itself. *)
Lemma SFcompare_refl_l (a b : spec_float) (r : comparison) :
  SFcompare a b = Some r -> SFcompare a a = Some Eq.
Proof.
  destruct a as [[]|[]| |[] ma ea], b as [[]|[]| |[] mb eb]; simpl;
    try congruence; intros _;
    rewrite Z.compare_refl, Pos.compare_cont_refl; reflexivity.
Qed.

Lemma SFcompare_refl_r (a b : spec_float) (r : comparison) :
  SFcompare a b = Some r -> SFcompare b b = Some Eq.
Proof.
  destruct a as [[]|[]| |[] ma ea], b as [[]|[]| |[] mb eb]; simpl;
    try congruence; intros _;
    rewrite Z.compare_refl, Pos.compare_cont_refl; reflexivity.
Qed.

(** The same facts for the primitive comparisons. *)

Lemma ltb_Lt (x y : float) :
  (x <? y)%float = true <-> SFcompare (Prim2SF x) (Prim2SF y) = Some Lt.
Proof.
  rewrite FloatAxioms.ltb_spec; unfold SFltb.
  destruct (SFcompare _ _) as [[]|]; split; congruence.
Qed.

Lemma leb_Le (x y : float) :
  (x <=? y)%float = true <->
  SFcompare (Prim2SF x) (Prim2SF y) = Some Lt \/
  SFcompare (Prim2SF x) (Prim2SF y) = Some Eq.
Proof.
  rewrite FloatAxioms.leb_spec; unfold SFleb.
  destruct (SFcompare _ _) as [[]|]; split; try tauto; try congruence;
    intros [?|?]; congruence.
Qed.

Lemma eqb_Eq (x y : float) :
  (x =? y)%float = true <-> SFcompare (Prim2SF x) (Prim2SF y) = Some Eq.
Proof.
  rewrite FloatAxioms.eqb_spec; unfold SFeqb.
  destruct (SFcompare _ _) as [[]|]; split; congruence.
Qed.

Lemma ltb_irrefl (x : float) : (x <? x)%float = false.
Proof.
  apply not_true_is_false; rewrite ltb_Lt; apply SFcompare_refl_not_Lt.
Qed.

Lemma eqb_not_ltb (x y : float) :
  (x =? y)%float = true -> (x <? y)%float = false /\ (y <? x)%float = false.
Proof.
  rewrite eqb_Eq; intros H; split; apply not_true_is_false; rewrite ltb_Lt.
  - congruence.
  - apply SFcompare_Eq_not_Lt, H.
Qed.

Lemma ltb_leb_trans (x y z : float) :
  (x <? y)%float = true -> (y <=? z)%float = true -> (x <? z)%float = true.
Proof. rewrite !ltb_Lt, leb_Le; apply SFcompare_Lt_Le_trans. Qed.

Lemma leb_ltb_trans (x y z : float) :
  (x <=? y)%float = true -> (y <? z)%float = true -> (x <? z)%float = true.
Proof. rewrite !ltb_Lt, leb_Le; apply SFcompare_Le_Lt_trans. Qed.

Lemma leb_trans (x y z : float) :
  (x <=? y)%float = true -> (y <=? z)%float = true -> (x <=? z)%float = true.
Proof.
  rewrite !leb_Le; intros [Hxy|Hxy] [Hyz|Hyz].
  - left; apply (SFcompare_Lt_Le_trans _ _ _ Hxy); auto.
  - left; apply (SFcompare_Lt_Le_trans _ _ _ Hxy); auto.
  - left; apply (SFcompare_Le_Lt_trans _ (Prim2SF y)); auto.
  - right; apply (SFcompare_Eq_trans _ _ _ Hxy Hyz).
Qed.

Lemma ltb_leb_refl_l (x y : float) :
  (x <? y)%float = true -> (x <=? x)%float = true.
Proof.
  rewrite ltb_Lt, leb_Le; intros H; right; apply (SFcompare_refl_l _ _ _ H).
Qed.

Lemma ltb_leb_refl_r (x y : float) :
  (x <? y)%float = true -> (y <=? y)%float = true.
Proof.
  rewrite ltb_Lt, leb_Le; intros H; right; apply (SFcompare_refl_r _ _ _ H).
Qed.

End FloatOrder.

(** ** The component *)

(** The private members of [class SingularityDetector]
    ([SingularityDetector.h], lines 53-62). The two ports are not part of the
    object's data: what [port_joint_position] delivers is an argument of
    [updateHook] and what [port_singularity_scaling] receives is its result. *)
Record SingularityDetector := {
  l1_lower : list float;
  l1_upper : list float;
  l2_lower : list float;
  l2_upper : list float;
  l3_lower : list float;
  l3_upper : list float;
  number_of_joints : Z;          (* int *)
  singularity_scaling : Z;       (* std_msgs::UInt8, field data *)
  joint_position : list float    (* Eigen::VectorXd *)
}.

(** Integer types. *)
Definition int_range (n : Z) : Prop := - 2 ^ 31 <= n < 2 ^ 31.
Definition size_t_of_int (n : Z) : Z := n mod 2 ^ 64.
Definition uint8_of_int (n : Z) : Z := n mod 2 ^ 8.

(** [v.size()] as a [size_t]. *)
Definition size (v : list float) : Z := Z.of_nat (length v).

(** *** checkAllLimitsSize *)

(** One line of [RTT::Logger::log(RTT::Logger::Error)]:
    [i << " lower limit wrong size: " << size << ", should be: " << n]. *)
Inductive Bound := Lower | Upper.

Record LogEntry := {
  log_index : Z;       (* i, the position in lower_limits / upper_limits *)
  log_bound : Bound;   (* "lower limit" or "upper limit" *)
  log_size : Z;        (* the size found *)
  log_expected : Z     (* number_of_joints_ *)
}.

(** The test [v.size() != number_of_joints_]: the comparison is made in
    [size_t], to which the [int] is converted. *)
Definition wrong_size (v : list float) (number_of_joints_ : Z) : bool :=
  negb (size v =? size_t_of_int number_of_joints_).

(** One of the two [for] loops of [checkAllLimitsSize], from index [i] on:
    [None] when the loop runs to its end, [Some e] when it leaves the function
    through [return false] after logging [e]. *)
Fixpoint limits_loop (b : Bound) (i : Z) (limits : list (list float))
    (number_of_joints_ : Z) : option LogEntry :=
  match limits with
  | [] => None
  | v :: rest =>
      if wrong_size v number_of_joints_
      then Some {| log_index := i; log_bound := b; log_size := size v;
                   log_expected := number_of_joints_ |}
      else limits_loop b (i + 1) rest number_of_joints_
  end.

(** [checkAllLimitsSize] (lines 81-102): the value returned and the lines
    logged. *)
Definition checkAllLimitsSize (number_of_joints_ : Z)
    (l1_lower_ l1_upper_ l2_lower_ l2_upper_ l3_lower_ l3_upper_ : list float)
    : bool * list LogEntry :=
  let lower_limits := [l1_lower_; l2_lower_; l3_lower_] in
  let upper_limits := [l1_upper_; l2_upper_; l3_upper_] in
  match limits_loop Lower 0 lower_limits number_of_joints_ with
  | Some e => (false, [e])
  | None =>
      match limits_loop Upper 0 upper_limits number_of_joints_ with
      | Some e => (false, [e])
      | None => (true, [])
      end
  end.

(** *** configureHook *)

(** [joint_position.resize(n)]: a vector of [n] coefficients. Eigen leaves
    them uninitialised; the component never reads them before a sample from
    the port has replaced the whole vector, and they are zeros here. *)
Definition resize (n : Z) : list float := replicate (Z.to_nat n) 0%float.

(** [configureHook] (lines 33-52): the value returned, the object after the
    call and the lines logged. No operation of the [try] block throws in this
    model, so the two [catch] handlers are never entered. *)
Definition configureHook (this : SingularityDetector)
    : bool * SingularityDetector * list LogEntry :=
  if number_of_joints this <=? 0 then (false, this, [])
  else
    let '(ok, log) :=
      checkAllLimitsSize (number_of_joints this)
        (l1_lower this) (l1_upper this) (l2_lower this) (l2_upper this)
        (l3_lower this) (l3_upper this) in
    if negb ok then (false, this, log)
    else
      (true,
       {| l1_lower := l1_lower this; l1_upper := l1_upper this;
          l2_lower := l2_lower this; l2_upper := l2_upper this;
          l3_lower := l3_lower this; l3_upper := l3_upper this;
          number_of_joints := number_of_joints this;
          singularity_scaling := uint8_of_int 1;
          joint_position := resize (number_of_joints this) |},
       log).

(** The life cycle of the host task. *)
Inductive TaskState := PreOperational | Stopped | Running.

(** [configure()] of the host framework (RTT::TaskContext, an external
    library) calls [configureHook]; the comment above [configureHook] (lines
    27-32) states what it does with the result: on [true] the Stopped state is
    entered, on [false] the PreOperational state. A running task is not
    configured again. *)
Definition configure (st : TaskState) (this : SingularityDetector)
    : TaskState * SingularityDetector :=
  match st with
  | Running => (Running, this)
  | _ =>
      let '(ok, this', _) := configureHook this in
      (if ok then Stopped else PreOperational, this')
  end.

(** Modelled from the spec: [start()] of the host framework is not under
    src/. Periodic evaluation starts only after a successful configuration:
    the task enters the Running state from the Stopped state only. *)
Definition start (st : TaskState) : TaskState :=
  match st with
  | Stopped => Running
  | _ => st
  end.

(** *** checkSingularityLevel *)

(** The test [joint_position[i]<upper[i] && joint_position[i]>lower[i]] of one
    band at joint [i]. The operands are read in the order of the source, and
    the right conjunct only when the left one holds; [a > b] is [b < a]. *)
Definition inside (joint_position upper lower : list float) (i : nat)
    : option bool :=
  p ← joint_position !! i;
  u ← upper !! i;
  if (p <? u)%float then
    p' ← joint_position !! i;
    l ← lower !! i;
    Some (l <? p')%float
  else Some false.

(** How one pass through the body of the [for] loop ends: with [break], or at
    the end of the body; in both cases with the values of the locals [max]
    and [temp]. *)
Inductive Step :=
  | Break (max temp : Z)
  | Next (max temp : Z).

(** The body of the loop (lines 125-141) at index [i]. *)
Definition loop_body
    (joint_position l1_lower_ l1_upper_ l2_lower_ l2_upper_ l3_lower_ l3_upper_
       : list float)
    (i : nat) (max temp : Z) : option Step :=
  c3 ← inside joint_position l3_upper_ l3_lower_ i;
  if c3 : bool then Some (Break 3 3)
  else
    c2 ← inside joint_position l2_upper_ l2_lower_ i;
    temp' ← (if c2 : bool then Some 2
             else
               c1 ← inside joint_position l1_upper_ l1_lower_ i;
               Some (if c1 : bool then 1 else 0));
    Some (Next (if temp' >=? max then temp' else max) temp').

(** The loop [for (int i=...; i< number_of_joints; i++)] from index [i] on,
    with [todo] passes left; the result is the value of [max] on exit. *)
Fixpoint joints_loop
    (joint_position l1_lower_ l1_upper_ l2_lower_ l2_upper_ l3_lower_ l3_upper_
       : list float)
    (todo i : nat) (max temp : Z) : option Z :=
  match todo with
  | O => Some max
  | S todo' =>
      s ← loop_body joint_position l1_lower_ l1_upper_ l2_lower_ l2_upper_
            l3_lower_ l3_upper_ i max temp;
      match s with
      | Break max' _ => Some max'
      | Next max' temp' =>
          joints_loop joint_position l1_lower_ l1_upper_ l2_lower_ l2_upper_
            l3_lower_ l3_upper_ todo' (S i) max' temp'
      end
  end.

(** [checkSingularityLevel] (lines 117-144). The loop is bounded by the
    member [number_of_joints] of the object; the argument [number_of_joints_]
    is not read. The parameter [joint_position] hides the member of that
    name, as in the source. *)
Definition checkSingularityLevel (this : SingularityDetector)
    (number_of_joints_ : Z)
    (joint_position l1_lower_ l1_upper_ l2_lower_ l2_upper_ l3_lower_ l3_upper_
       : list float)
    : option Z :=
  joints_loop joint_position l1_lower_ l1_upper_ l2_lower_ l2_upper_
    l3_lower_ l3_upper_ (Z.to_nat (number_of_joints this)) 0%nat 0 0.

(** *** updateHook *)

(** [port_joint_position.read(sample)]: the state of the input port at the
    time of the call decides the status returned and what is copied into
    [sample]. *)
Inductive FlowStatus := NoData | OldData | NewData.

Inductive PortRead :=
  | ReadNoData
  | ReadOldData (v : list float)
  | ReadNewData (v : list float).

Definition read (r : PortRead) (sample : list float)
    : FlowStatus * list float :=
  match r with
  | ReadNoData => (NoData, sample)
  | ReadOldData v => (OldData, v)
  | ReadNewData v => (NewData, v)
  end.

Definition set_joint_position (this : SingularityDetector) (v : list float)
    : SingularityDetector :=
  {| l1_lower := l1_lower this; l1_upper := l1_upper this;
     l2_lower := l2_lower this; l2_upper := l2_upper this;
     l3_lower := l3_lower this; l3_upper := l3_upper this;
     number_of_joints := number_of_joints this;
     singularity_scaling := singularity_scaling this;
     joint_position := v |}.

Definition set_singularity_scaling (this : SingularityDetector) (d : Z)
    : SingularityDetector :=
  {| l1_lower := l1_lower this; l1_upper := l1_upper this;
     l2_lower := l2_lower this; l2_upper := l2_upper this;
     l3_lower := l3_lower this; l3_upper := l3_upper this;
     number_of_joints := number_of_joints this;
     singularity_scaling := d;
     joint_position := joint_position this |}.

(** [updateHook] (lines 59-65): the object after the call and the messages
    written to [port_singularity_scaling]; [None] when the classifier reads
    out of range. *)
Definition updateHook (this : SingularityDetector) (r : PortRead)
    : option (SingularityDetector * list Z) :=
  let '(status, sample) := read r (joint_position this) in
  let this := set_joint_position this sample in
  this ← match status with
         | NewData =>
             singularity_level ←
               checkSingularityLevel this (number_of_joints this)
                 (joint_position this)
                 (l1_lower this) (l1_upper this) (l2_lower this)
                 (l2_upper this) (l3_lower this) (l3_upper this);
             Some (set_singularity_scaling this
                     (uint8_of_int (singularity_level + 1)))
         | _ => Some this
         end;
  Some (this, [singularity_scaling this]).

(** Consecutive cycles: one [updateHook] per element of [rs]; the messages
    written, oldest first. *)
Fixpoint cycles (this : SingularityDetector) (rs : list PortRead)
    : option (SingularityDetector * list Z) :=
  match rs with
  | [] => Some (this, [])
  | r :: rs' =>
      '(this, out) ← updateHook this r;
      '(this, outs) ← cycles this rs';
      Some (this, out ++ outs)
  end.

(** *** The constructor *)

(** [SingularityDetector(name)] (lines 9-21) registers the properties and the
    ports and leaves the members as their default constructors make them: the
    six limit vectors and [joint_position] empty, [singularity_scaling.data]
    zero. The [int] member [number_of_joints] has no initialiser: its value
    [n] is whatever the object holds until the property is set. The task is
    created in the PreOperational state. *)
Definition SingularityDetector_ctor (n : Z) : SingularityDetector :=
  {| l1_lower := []; l1_upper := [];
     l2_lower := []; l2_upper := [];
     l3_lower := []; l3_upper := [];
     number_of_joints := n;
     singularity_scaling := 0;
     joint_position := [] |}.

Definition initial_state : TaskState := PreOperational.

(** ** The words of the specification *)

(** A position is inside a band when it lies strictly between the band's
    lower and upper limit. *)
Definition in_band (lower p upper : float) : bool :=
  (lower <? p)%float && (p <? upper)%float.

(** The local level of a joint: 3 inside band 3, else 2 inside band 2, else 1
    inside band 1, else 0. *)
Definition local_level (p lo1 up1 lo2 up2 lo3 up3 : float) : Z :=
  if in_band lo3 p up3 then 3
  else if in_band lo2 p up2 then 2
  else if in_band lo1 p up1 then 1
  else 0.

(** The local level of joint [i] of a position vector and six limit
    sequences; [None] when one of them has no entry [i]. *)
Definition joint_level
    (position lo1 up1 lo2 up2 lo3 up3 : list float) (i : nat) : option Z :=
  p ← position !! i;
  a1 ← lo1 !! i; b1 ← up1 !! i;
  a2 ← lo2 !! i; b2 ← up2 !! i;
  a3 ← lo3 !! i; b3 ← up3 !! i;
  Some (local_level p a1 b1 a2 b2 a3 b3).

(** The reference classifier: every joint from [0] to [n-1] is scanned, and
    the result is the largest local level found. *)
Definition classify_reference (n : nat)
    (position lo1 up1 lo2 up2 lo3 up3 : list float) : option Z :=
  levels ← mapM (joint_level position lo1 up1 lo2 up2 lo3 up3) (seq 0 n);
  Some (foldr Z.max 0 levels).

(** Length-matched input for joint count [n]. *)
Definition length_matched (n : Z)
    (position lo1 up1 lo2 up2 lo3 up3 : list float) : Prop :=
  size position = n /\
  size lo1 = n /\ size up1 = n /\
  size lo2 = n /\ size up2 = n /\
  size lo3 = n /\ size up3 = n.

(** ** Notions used in the statements *)

(** Two doubles hold exactly the same value: the same datum, or equal for
    the comparison [==] of IEEE 754 (which identifies the two zeros). *)
Definition same_value (x y : float) : Prop :=
  x = y \/ (x =? y)%float = true.

(** The limit sequences of band [b], lower first; band 3 for any other [b]. *)
Definition band (b : Z) (lo1 up1 lo2 up2 lo3 up3 : list float)
    : list float * list float :=
  if b =? 1 then (lo1, up1) else if b =? 2 then (lo2, up2) else (lo3, up3).

(** The value of the local [temp] at the end of a pass through the loop body:
    the local level the pass has found for its joint. *)
Definition temp_of (s : Step) : Z :=
  match s with
  | Break _ temp => temp
  | Next _ temp => temp
  end.

(** The six sequences in the order in which [checkAllLimitsSize] tests them,
    each with the bound and the index its diagnostic would carry. *)
Definition checked_order
    (l1_lower_ l1_upper_ l2_lower_ l2_upper_ l3_lower_ l3_upper_ : list float)
    : list (Bound * Z * list float) :=
  [(Lower, 0, l1_lower_); (Lower, 1, l2_lower_); (Lower, 2, l3_lower_);
   (Upper, 0, l1_upper_); (Upper, 1, l2_upper_); (Upper, 2, l3_upper_)].

(** The diagnostic of a sequence of the wrong size: index, bound, the size
    found and the size expected. *)
Definition diagnostic (number_of_joints_ : Z) (t : Bound * Z * list float)
    : LogEntry :=
  {| log_index := t.1.2; log_bound := t.1.1; log_size := size t.2;
     log_expected := number_of_joints_ |}.

(** How many of the six sequences have a size different from the joint
    count. *)
Definition count_wrong (number_of_joints_ : Z)
    (l1_lower_ l1_upper_ l2_lower_ l2_upper_ l3_lower_ l3_upper_ : list float)
    : nat :=
  length
    (List.filter (fun t => wrong_size t.2 number_of_joints_)
       (checked_order l1_lower_ l1_upper_ l2_lower_ l2_upper_
          l3_lower_ l3_upper_)).

(** The validator as the specification words it: with more than one
    sequence of the wrong size, it returns false and has logged the
    diagnostic of every such sequence. *)
Definition reports_every_mismatch (number_of_joints_ : Z)
    (l1_lower_ l1_upper_ l2_lower_ l2_upper_ l3_lower_ l3_upper_ : list float)
    : Prop :=
  (1 < count_wrong number_of_joints_ l1_lower_ l1_upper_ l2_lower_ l2_upper_
         l3_lower_ l3_upper_)%nat ->
  let r := checkAllLimitsSize number_of_joints_ l1_lower_ l1_upper_ l2_lower_
             l2_upper_ l3_lower_ l3_upper_ in
  r.1 = false /\
  forall t,
    t ∈ checked_order l1_lower_ l1_upper_ l2_lower_ l2_upper_
          l3_lower_ l3_upper_ ->
    wrong_size t.2 number_of_joints_ = true ->
    diagnostic number_of_joints_ t ∈ r.2.

(** A cycle in which the port delivers no new sample. *)
Definition no_new_sample (r : PortRead) : Prop :=
  match r with
  | ReadNewData _ => False
  | _ => True
  end.

(** The position of joint [i] moves from [p] to [p'] toward the target [c]:
    [p'] lies between [p] and [c]. *)
Definition toward (c p p' : float) : Prop :=
  ((p <=? p')%float = true /\ (p' <=? c)%float = true) \/
  ((c <=? p')%float = true /\ (p' <=? p)%float = true).

(** The bands of a joint are nested: band 3 within band 2 within band 1. *)
Definition nested (a1 b1 a2 b2 a3 b3 : float) : Prop :=
  (a1 <=? a2)%float = true /\ (a2 <=? a3)%float = true /\
  (b3 <=? b2)%float = true /\ (b2 <=? b1)%float = true.

(** The claim as the specification words it, at joint [i] of a given
    configuration: the other joints are outside every band, the position of
    joint [i] starts at [p0] outside its three bands and moves through [p] and
    then [p'] toward the center of its band 3; the level classified at [p] is
    at most the level classified at [p']. *)
Definition level_monotone_toward_center (this : SingularityDetector)
    (position lo1 up1 lo2 up2 lo3 up3 : list float)
    (i : nat) (p0 p p' : float) : Prop :=
  forall a3 b3 : float,
    lo3 !! i = Some a3 -> up3 !! i = Some b3 ->
    (forall j, j <> i -> (j < Z.to_nat (number_of_joints this))%nat ->
               joint_level position lo1 up1 lo2 up2 lo3 up3 j = Some 0) ->
    joint_level (<[i := p0]> position) lo1 up1 lo2 up2 lo3 up3 i = Some 0 ->
    toward ((a3 + b3) / 2)%float p0 p ->
    toward ((a3 + b3) / 2)%float p p' ->
    exists l l',
      checkSingularityLevel this (number_of_joints this)
        (<[i := p]> position) lo1 up1 lo2 up2 lo3 up3 = Some l /\
      checkSingularityLevel this (number_of_joints this)
        (<[i := p']> position) lo1 up1 lo2 up2 lo3 up3 = Some l' /\
      l <= l'.

(** What the port may deliver to an object configured for [n] joints without
    an out-of-range read: a new sample has [n] entries. Samples that are not
    new are never classified. *)
Definition sample_fits (n : Z) (r : PortRead) : Prop :=
  match r with
  | ReadNewData v => size v = n
  | _ => True
  end.

(** The object holds the configuration of [this0]: the joint count and the
    six limit sequences. *)
Definition same_configuration (this0 this : SingularityDetector) : Prop :=
  number_of_joints this = number_of_joints this0 /\
  l1_lower this = l1_lower this0 /\ l1_upper this = l1_upper this0 /\
  l2_lower this = l2_lower this0 /\ l2_upper this = l2_upper this0 /\
  l3_lower this = l3_lower this0 /\ l3_upper this = l3_upper this0.

(** Entry by entry, the first sequence is at most the second. *)
Definition all_le (v w : list float) : Prop :=
  Forall2 (fun x y => (x <=? y)%float = true) v w.

(** ** Concrete data for the examples *)

Module Examples.

(** Scenario A of the specification: two joints, joint 0 at [0.0] inside
    band 1 only, joint 1 at [5.0] in no band. *)
Definition detectorA : SingularityDetector :=
  {| l1_lower := [-0.2; -0.2]%float; l1_upper := [0.2; 0.2]%float;
     l2_lower := [1; 1]%float; l2_upper := [2; 2]%float;
     l3_lower := [3; 3]%float; l3_upper := [4; 4]%float;
     number_of_joints := 2;
     singularity_scaling := 1;
     joint_position := [0; 0]%float |}.

Definition positionA : list float := [0; 5]%float.

(** Two joints with the nested bands (-3, 3), (-2, 2) and (-1, 1). *)
Definition lo1 : list float := [-3; -3]%float.
Definition up1 : list float := [3; 3]%float.
Definition lo2 : list float := [-2; -2]%float.
Definition up2 : list float := [2; 2]%float.
Definition lo3 : list float := [-1; -1]%float.
Definition up3 : list float := [1; 1]%float.

(** An object with these limits whose member [number_of_joints] is [n]. *)
Definition detector (n : Z) : SingularityDetector :=
  {| l1_lower := lo1; l1_upper := up1;
     l2_lower := lo2; l2_upper := up2;
     l3_lower := lo3; l3_upper := up3;
     number_of_joints := n;
     singularity_scaling := 1;
     joint_position := [0; 0]%float |}.

(** Joint 0 outside every band, joint 1 inside band 3. *)
Definition position03 : list float := [5; 0]%float.

(** Joint 0 outside every band, joint 1 inside band 2 only. *)
Definition position02 : list float := [5; 1.5]%float.

(** The classifier as [updateHook] calls it. *)
Definition classify (this : SingularityDetector) (position : list float)
    : option Z :=
  checkSingularityLevel this (number_of_joints this) position
    (l1_lower this) (l1_upper this) (l2_lower this) (l2_upper this)
    (l3_lower this) (l3_upper this).

End Examples.

(** ** Properties of the classifier *)

(** The largest element of a list of levels. *)
Lemma foldr_max_nonneg (l : list Z) : 0 <= foldr Z.max 0 l.
Proof. induction l as [|x l IH]; simpl; lia. Qed.

Lemma foldr_max_ge (l : list Z) (x : Z) : x ∈ l -> x <= foldr Z.max 0 l.
Proof.
  induction 1 as [x l|x y l _ IH]; simpl; lia.
Qed.

Lemma foldr_max_le (l : list Z) (b : Z) :
  0 <= b -> Forall (fun x => x <= b) l -> foldr Z.max 0 l <= b.
Proof. intros Hb; induction 1; simpl; lia. Qed.

Lemma foldr_max_elem (l : list Z) :
  l <> [] -> Forall (fun x => 0 <= x) l -> foldr Z.max 0 l ∈ l.
Proof.
  induction l as [|x l IH]; [congruence|]; intros _ Hall.
  apply Forall_cons in Hall as [Hx Hl]; simpl.
  destruct l as [|y l].
  - simpl; rewrite Z.max_l by lia; left.
  - destruct (Z.max_spec x (foldr Z.max 0 (y :: l))) as [[_ ->]|[_ ->]].
    + right; apply IH; [congruence|assumption].
    + left.
Qed.

Lemma local_level_range (p a1 b1 a2 b2 a3 b3 : float) :
  0 <= local_level p a1 b1 a2 b2 a3 b3 <= 3.
Proof. unfold local_level; repeat case_match; lia. Qed.

Section Classifier.

Variables position lo1 up1 lo2 up2 lo3 up3 : list float.

Local Abbreviation level_at := (joint_level position lo1 up1 lo2 up2 lo3 up3).
Local Abbreviation body := (loop_body position lo1 up1 lo2 up2 lo3 up3).
Local Abbreviation scan := (joints_loop position lo1 up1 lo2 up2 lo3 up3).

Lemma inside_lookup (upper lower : list float) (i : nat) (p u l : float) :
  position !! i = Some p -> upper !! i = Some u -> lower !! i = Some l ->
  inside position upper lower i = Some (in_band l p u).
Proof.
  intros Hp Hu Hl; unfold inside, in_band; rewrite Hp, Hu; simpl.
  destruct (p <? u)%float; simpl.
  - rewrite Hl; simpl; now rewrite andb_true_r.
  - now rewrite andb_false_r.
Qed.

Lemma joint_level_range (i : nat) (k : Z) : level_at i = Some k -> 0 <= k <= 3.
Proof.
  unfold joint_level; intros H; simplify_option_eq; apply local_level_range.
Qed.

(** With length-matched sequences every joint below the common length has a
    local level. *)
Lemma joint_level_is_Some (n : Z) (i : nat) :
  length_matched n position lo1 up1 lo2 up2 lo3 up3 ->
  (i < Z.to_nat n)%nat -> is_Some (level_at i).
Proof.
  unfold length_matched, size; intros (Hp & H1 & H2 & H3 & H4 & H5 & H6) Hi.
  assert (Hlt : forall v : list float,
             Z.of_nat (length v) = n -> is_Some (v !! i))
    by (intros v Hv; apply lookup_lt_is_Some; lia).
  destruct (Hlt _ Hp) as [p Ep], (Hlt _ H1) as [a1 E1], (Hlt _ H2) as [b1 E2],
    (Hlt _ H3) as [a2 E3], (Hlt _ H4) as [b2 E4], (Hlt _ H5) as [a3 E5],
    (Hlt _ H6) as [b3 E6].
  unfold joint_level; rewrite Ep, E1, E2, E3, E4, E5, E6; simpl; eauto.
Qed.

(** One pass through the loop body at a joint that has a local level [k]:
    the loop is left when [k] is 3, and otherwise [max] becomes the larger
    of [max] and [k]. *)
Lemma loop_body_level (i : nat) (k max temp : Z) :
  level_at i = Some k ->
  body i max temp =
    Some (if decide (k = 3) then Break 3 3 else Next (Z.max max k) k).
Proof.
  unfold joint_level, loop_body; intros H.
  destruct (position !! i) as [p|] eqn:Ep; simpl in H; [|discriminate].
  destruct (lo1 !! i) as [a1|] eqn:E1; simpl in H; [|discriminate].
  destruct (up1 !! i) as [b1|] eqn:E2; simpl in H; [|discriminate].
  destruct (lo2 !! i) as [a2|] eqn:E3; simpl in H; [|discriminate].
  destruct (up2 !! i) as [b2|] eqn:E4; simpl in H; [|discriminate].
  destruct (lo3 !! i) as [a3|] eqn:E5; simpl in H; [|discriminate].
  destruct (up3 !! i) as [b3|] eqn:E6; simpl in H; [|discriminate].
  injection H as <-.
  rewrite (inside_lookup up3 lo3 i p b3 a3), (inside_lookup up2 lo2 i p b2 a2),
    (inside_lookup up1 lo1 i p b1 a1) by assumption.
  unfold local_level.
  destruct (in_band a3 p b3); simpl; [reflexivity|].
  destruct (in_band a2 p b2); simpl.
  { destruct (Z.geb_spec 2 max); do 2 f_equal; lia. }
  destruct (in_band a1 p b1); simpl.
  - destruct (Z.geb_spec 1 max); do 2 f_equal; lia.
  - destruct (Z.geb_spec 0 max); do 2 f_equal; lia.
Qed.

(** The loop with early exit against the scan to completion: when every
    joint of the range has a local level, the loop returns the larger of the
    incoming [max] and the largest local level of the range. *)
Lemma joints_loop_max (todo : nat) :
  forall (i : nat) (max temp : Z),
    0 <= max <= 3 ->
    (forall j, (i <= j < i + todo)%nat -> is_Some (level_at j)) ->
    exists levels,
      mapM level_at (seq i todo) = Some levels /\
      scan todo i max temp = Some (Z.max max (foldr Z.max 0 levels)).
Proof.
  induction todo as [|todo IH]; intros i max temp Hmax Hall.
  - exists []; split; [reflexivity|]; simpl; f_equal; lia.
  - destruct (Hall i ltac:(lia)) as [k Hk].
    pose proof (joint_level_range i k Hk) as Hr.
    destruct (IH (S i) (Z.max max k) k ltac:(lia)
                ltac:(intros j Hj; apply Hall; lia)) as (levels & Hm & Hs).
    exists (k :: levels); split.
    + simpl; rewrite Hk; simpl; rewrite Hm; reflexivity.
    + simpl; rewrite (loop_body_level i k max temp Hk); simpl.
      destruct (decide (k = 3)) as [->|Hne].
      * f_equal.
        assert (foldr Z.max 0 levels <= 3).
        { apply foldr_max_le; [lia|].
          apply mapM_Some in Hm.
          apply Forall_forall; intros x Hx.
          apply list_elem_of_lookup in Hx as [ix Hix].
          destruct (Forall2_lookup_r _ _ _ _ _ Hm Hix) as (j & _ & Hj).
          apply joint_level_range in Hj; lia. }
        lia.
      * rewrite Hs; f_equal; lia.
Qed.

(** The classifier on length-matched input: the local levels of all joints
    exist, and the level returned is the largest of them. *)
Lemma checkSingularityLevel_levels (this : SingularityDetector) (n_ : Z) :
  length_matched (number_of_joints this) position lo1 up1 lo2 up2 lo3 up3 ->
  exists levels,
    mapM level_at (seq 0 (Z.to_nat (number_of_joints this))) = Some levels /\
    checkSingularityLevel this n_ position lo1 up1 lo2 up2 lo3 up3 =
      Some (foldr Z.max 0 levels).
Proof.
  intros Hlen.
  destruct (joints_loop_max (Z.to_nat (number_of_joints this)) 0 0 0
              ltac:(lia)) as (levels & Hm & Hs).
  { intros j Hj; apply (joint_level_is_Some (number_of_joints this));
      [assumption|lia]. }
  exists levels; split; [assumption|].
  unfold checkSingularityLevel; rewrite Hs; f_equal.
  pose proof (foldr_max_nonneg levels); lia.
Qed.

(** The list of levels computed by [mapM] holds, at each index, the local
    level of that joint. *)
Lemma mapM_seq_lookup (n : nat) (levels : list Z) :
  mapM level_at (seq 0 n) = Some levels ->
  length levels = n /\
  forall i, (i < n)%nat -> level_at i = levels !! i.
Proof.
  intros Hm; apply mapM_Some in Hm.
  pose proof (Forall2_length _ _ _ Hm) as Hl; rewrite length_seq in Hl.
  split; [lia|]; intros i Hi.
  destruct (Forall2_lookup_l _ _ _ i i Hm) as (k & Hk & Hlev).
  { apply lookup_seq; lia. }
  congruence.
Qed.

(** C1 (global = max of local): for every joint count n > 0, position vector
    of length n and six band sequences of length n, the level returned by
    checkSingularityLevel is the maximum over the joints 0..n-1 of the joint's
    local level (3 inside band 3, else 2 inside band 2, else 1 inside band 1,
    else 0): it is the local level of some joint, and no joint has a larger
    one. The joint count is the member number_of_joints, which bounds the
    loop; the argument number_of_joints_ is arbitrary. *)
Theorem checkSingularityLevel_is_max_local_level
    (this : SingularityDetector) (number_of_joints_ : Z) :
  0 < number_of_joints this ->
  length_matched (number_of_joints this) position lo1 up1 lo2 up2 lo3 up3 ->
  exists level,
    checkSingularityLevel this number_of_joints_
      position lo1 up1 lo2 up2 lo3 up3 = Some level /\
    (exists i, (i < Z.to_nat (number_of_joints this))%nat /\
               level_at i = Some level) /\
    (forall i, (i < Z.to_nat (number_of_joints this))%nat ->
               exists k, level_at i = Some k /\ k <= level).
Proof.
  intros Hpos Hlen.
  destruct (checkSingularityLevel_levels this number_of_joints_ Hlen)
    as (levels & Hm & Hc).
  destruct (mapM_seq_lookup _ _ Hm) as (Hl & Hat).
  exists (foldr Z.max 0 levels); split; [assumption|split].
  - assert (Hin : foldr Z.max 0 levels ∈ levels).
    { apply foldr_max_elem.
      - intros ->; simpl in Hl; lia.
      - apply Forall_forall; intros x Hx.
        apply list_elem_of_lookup in Hx as [ix Hix].
        pose proof (lookup_lt_Some _ _ _ Hix) as Hlt.
        rewrite <- Hat in Hix by lia.
        apply joint_level_range in Hix; lia. }
    apply list_elem_of_lookup in Hin as [i Hi].
    pose proof (lookup_lt_Some _ _ _ Hi) as Hlt.
    exists i; split; [lia|]; rewrite Hat by lia; assumption.
  - intros i Hi.
    destruct (lookup_lt_is_Some_2 levels i ltac:(lia)) as [k Hk].
    exists k; split; [rewrite Hat by lia; assumption|].
    apply foldr_max_ge, list_elem_of_lookup; eauto.
Qed.

(** C6 (early exit is unobservable): on length-matched input the classifier,
    which leaves the joint scan at the first joint of local level 3, returns a
    level, and it is the level of the reference classifier that scans every
    joint and takes the largest local level. *)
Theorem checkSingularityLevel_equals_reference
    (this : SingularityDetector) (number_of_joints_ : Z) :
  length_matched (number_of_joints this) position lo1 up1 lo2 up2 lo3 up3 ->
  is_Some (checkSingularityLevel this number_of_joints_
             position lo1 up1 lo2 up2 lo3 up3) /\
  checkSingularityLevel this number_of_joints_
    position lo1 up1 lo2 up2 lo3 up3 =
  classify_reference (Z.to_nat (number_of_joints this))
    position lo1 up1 lo2 up2 lo3 up3.
Proof.
  intros Hlen.
  destruct (checkSingularityLevel_levels this number_of_joints_ Hlen)
    as (levels & Hm & Hc).
  unfold classify_reference; rewrite Hc, Hm; simpl; eauto.
Qed.

End Classifier.

(** ** Boundaries *)

Lemma same_value_not_ltb (x y : float) :
  same_value x y -> (x <? y)%float = false /\ (y <? x)%float = false.
Proof.
  intros [-> | H].
  - split; apply FloatOrder.ltb_irrefl.
  - apply FloatOrder.eqb_not_ltb, H.
Qed.

(** C5 (strict boundary): for every joint i and band b in {1,2,3}, when
    position[i] is exactly equal to band b's lower[i] or upper[i], the band
    test of the classifier for band b at joint i is false, and the local level
    the loop body finds for joint i is not b. *)
Theorem boundary_is_outside_band
    (position lo1 up1 lo2 up2 lo3 up3 : list float)
    (b : Z) (i : nat) (p l u : float) :
  b = 1 \/ b = 2 \/ b = 3 ->
  position !! i = Some p ->
  (band b lo1 up1 lo2 up2 lo3 up3).1 !! i = Some l ->
  (band b lo1 up1 lo2 up2 lo3 up3).2 !! i = Some u ->
  same_value p l \/ same_value p u ->
  inside position (band b lo1 up1 lo2 up2 lo3 up3).2
    (band b lo1 up1 lo2 up2 lo3 up3).1 i = Some false /\
  forall (max temp : Z) (s : Step),
    loop_body position lo1 up1 lo2 up2 lo3 up3 i max temp = Some s ->
    temp_of s <> b.
Proof.
  intros Hb Hp Hl Hu Hsame.
  assert (Hin : inside position (band b lo1 up1 lo2 up2 lo3 up3).2
                  (band b lo1 up1 lo2 up2 lo3 up3).1 i = Some false).
  { rewrite (inside_lookup position _ _ i p u l) by assumption.
    f_equal; unfold in_band.
    destruct Hsame as [H|H]; apply same_value_not_ltb in H as [H1 H2].
    - rewrite H2; reflexivity.
    - rewrite H1; apply andb_false_r. }
  split; [assumption|].
  intros max temp s; unfold loop_body.
  destruct Hb as [-> | [-> | ->]]; simpl in Hin; intros Hs;
    destruct (inside position up3 lo3 i) as [[]|];
    destruct (inside position up2 lo2 i) as [[]|];
    destruct (inside position up1 lo1 i) as [[]|];
    simpl in Hs; simplify_eq; simpl; lia.
Qed.

(** ** The joint count the classifier uses *)

(** C9: the level returned by checkSingularityLevel does not depend on the
    argument number_of_joints_: two calls on objects with the same member
    number_of_joints, with the same position and the same six band sequences,
    return the same result whatever the two arguments number_of_joints_ are
    (and whatever the other members hold). *)
Theorem checkSingularityLevel_argument_unused
    (this1 this2 : SingularityDetector) (n1 n2 : Z)
    (position lo1 up1 lo2 up2 lo3 up3 : list float) :
  number_of_joints this1 = number_of_joints this2 ->
  checkSingularityLevel this1 n1 position lo1 up1 lo2 up2 lo3 up3 =
  checkSingularityLevel this2 n2 position lo1 up1 lo2 up2 lo3 up3.
Proof. intros H; unfold checkSingularityLevel; rewrite H; reflexivity. Qed.

(** ** Validation of the configuration *)

(** With joint count 3, [l1_lower] of length 2 and [l2_lower] of length 1 are
    both of the wrong size; only the first is reported. *)
Lemma checkAllLimitsSize_does_not_report_every_mismatch :
  ~ reports_every_mismatch 3
      [1; 2]%float [1; 2; 3]%float [1]%float [1; 2; 3]%float
      [1; 2; 3]%float [1; 2; 3]%float.
Proof.
  unfold reports_every_mismatch; intros H.
  destruct (H ltac:(vm_compute; lia)) as [_ Hall].
  specialize (Hall (Lower, 1, [1]%float)
                ltac:(apply list_elem_of_further, list_elem_of_here) eq_refl).
  apply list_elem_of_singleton in Hall; discriminate.
Qed.

(** The sequences tested before the one at index [k] have the right size. *)
Ltac earlier_ok :=
  let j := fresh "j" in
  let Hj := fresh "Hj" in
  let Hl := fresh "Hl" in
  intros j ? Hj Hl;
  repeat (destruct j as [|j]; [simpl in Hl; simplify_eq; assumption|]);
  simpl in Hj; lia.

(** The loop leaves the function at the sequence [t] of index [k]. *)
Ltac found k t :=
  exists k, t; split; [reflexivity|]; split; [assumption|];
  split; [earlier_ok || (intros; lia)|reflexivity].

(** C2, amended: for every input in which at least one (in particular, more
    than one) of the six sequences has a size different from the joint count,
    checkAllLimitsSize stops at the first such sequence in the order l1_lower,
    l2_lower, l3_lower, l1_upper, l2_upper, l3_upper: it logs exactly one
    diagnostic, the one of that sequence (its index 0, 1 or 2 among the lower
    or the upper limits, its size, the joint count), and returns false. *)
Theorem checkAllLimitsSize_stops_at_first_mismatch (number_of_joints_ : Z)
    (l1_lower_ l1_upper_ l2_lower_ l2_upper_ l3_lower_ l3_upper_ : list float) :
  (1 <= count_wrong number_of_joints_ l1_lower_ l1_upper_ l2_lower_ l2_upper_
          l3_lower_ l3_upper_)%nat ->
  exists (k : nat) (t : Bound * Z * list float),
    checked_order l1_lower_ l1_upper_ l2_lower_ l2_upper_ l3_lower_ l3_upper_
      !! k = Some t /\
    wrong_size t.2 number_of_joints_ = true /\
    (forall j t',
        (j < k)%nat ->
        checked_order l1_lower_ l1_upper_ l2_lower_ l2_upper_ l3_lower_
          l3_upper_ !! j = Some t' ->
        wrong_size t'.2 number_of_joints_ = false) /\
    checkAllLimitsSize number_of_joints_ l1_lower_ l1_upper_ l2_lower_
      l2_upper_ l3_lower_ l3_upper_ =
    (false, [diagnostic number_of_joints_ t]).
Proof.
  unfold count_wrong, checkAllLimitsSize, checked_order; simpl.
  destruct (wrong_size l1_lower_ number_of_joints_) eqn:E1;
    [intros _; found 0%nat (Lower, 0, l1_lower_)|].
  destruct (wrong_size l2_lower_ number_of_joints_) eqn:E2;
    [intros _; found 1%nat (Lower, 1, l2_lower_)|].
  destruct (wrong_size l3_lower_ number_of_joints_) eqn:E3;
    [intros _; found 2%nat (Lower, 2, l3_lower_)|].
  destruct (wrong_size l1_upper_ number_of_joints_) eqn:E4;
    [intros _; found 3%nat (Upper, 0, l1_upper_)|].
  destruct (wrong_size l2_upper_ number_of_joints_) eqn:E5;
    [intros _; found 4%nat (Upper, 1, l2_upper_)|].
  destruct (wrong_size l3_upper_ number_of_joints_) eqn:E6;
    [intros _; found 5%nat (Upper, 2, l3_upper_)|].
  simpl; lia.
Qed.

Lemma size_t_of_int_positive (n : Z) :
  int_range n -> 0 < n -> size_t_of_int n = n.
Proof.
  unfold int_range, size_t_of_int; intros Hr Hn; apply Z.mod_small; lia.
Qed.

Lemma wrong_size_false (v : list float) (n : Z) :
  int_range n -> 0 < n -> wrong_size v n = false <-> size v = n.
Proof.
  intros Hr Hn; unfold wrong_size.
  rewrite (size_t_of_int_positive n Hr Hn), negb_false_iff; apply Z.eqb_eq.
Qed.

(** [checkAllLimitsSize] returns true exactly when none of the six sequences
    has the wrong size. *)
Lemma checkAllLimitsSize_true (n_ : Z)
    (l1_lower_ l1_upper_ l2_lower_ l2_upper_ l3_lower_ l3_upper_ : list float) :
  (checkAllLimitsSize n_ l1_lower_ l1_upper_ l2_lower_ l2_upper_ l3_lower_
     l3_upper_).1 = true <->
  wrong_size l1_lower_ n_ = false /\ wrong_size l1_upper_ n_ = false /\
  wrong_size l2_lower_ n_ = false /\ wrong_size l2_upper_ n_ = false /\
  wrong_size l3_lower_ n_ = false /\ wrong_size l3_upper_ n_ = false.
Proof.
  unfold checkAllLimitsSize; simpl.
  destruct (wrong_size l1_lower_ n_), (wrong_size l2_lower_ n_),
    (wrong_size l3_lower_ n_), (wrong_size l1_upper_ n_),
    (wrong_size l2_upper_ n_), (wrong_size l3_upper_ n_); simpl;
    intuition congruence.
Qed.

(** The value returned by [configureHook]. *)
Lemma configureHook_result (this : SingularityDetector) :
  (configureHook this).1.1 =
  negb (number_of_joints this <=? 0) &&
  (checkAllLimitsSize (number_of_joints this)
     (l1_lower this) (l1_upper this) (l2_lower this) (l2_upper this)
     (l3_lower this) (l3_upper this)).1.
Proof.
  unfold configureHook.
  destruct (number_of_joints this <=? 0); [reflexivity|].
  destruct (checkAllLimitsSize _ _ _ _ _ _ _) as [[] log]; reflexivity.
Qed.

(** C3 (validation completeness): for every joint count n (an int) and six
    band sequences, the configuration gate configureHook, which combines the
    test of the joint count with checkAllLimitsSize, returns true if and only
    if n > 0 and all six sequences have length exactly n; for n <= 0 it
    returns false whatever the lengths; and when it returns false the task is
    left in the PreOperational state, from which it cannot be started. *)
Theorem configureHook_validation_complete (this : SingularityDetector) :
  int_range (number_of_joints this) ->
  ((configureHook this).1.1 = true <->
   0 < number_of_joints this /\
   size (l1_lower this) = number_of_joints this /\
   size (l1_upper this) = number_of_joints this /\
   size (l2_lower this) = number_of_joints this /\
   size (l2_upper this) = number_of_joints this /\
   size (l3_lower this) = number_of_joints this /\
   size (l3_upper this) = number_of_joints this) /\
  (number_of_joints this <= 0 -> (configureHook this).1.1 = false) /\
  ((configureHook this).1.1 = false ->
   forall st : TaskState,
     st <> Running ->
     (configure st this).1 = PreOperational /\
     start (configure st this).1 <> Running).
Proof.
  intros Hr; split; [|split].
  - rewrite configureHook_result; split.
    + intros [Hn Hc]%andb_prop.
      apply negb_true_iff, Z.leb_gt in Hn; split; [assumption|].
      apply checkAllLimitsSize_true in Hc.
      rewrite !(wrong_size_false _ _ Hr Hn) in Hc; assumption.
    + intros [Hn Hc]; apply andb_true_intro; split.
      * apply negb_true_iff, Z.leb_gt; assumption.
      * apply checkAllLimitsSize_true.
        rewrite !(wrong_size_false _ _ Hr Hn); assumption.
  - rewrite configureHook_result.
    intros Hn; apply Z.leb_le in Hn; rewrite Hn; reflexivity.
  - intros Hfalse st Hst; unfold configure.
    destruct (configureHook this) as [[ok this'] log]; simpl in Hfalse.
    subst ok; destruct st; simpl; split; congruence.
Qed.

(** C10: checkAllLimitsSize alone does not reject a joint count that is not
    positive: with number_of_joints_ = 0 and six empty sequences it returns
    true (and logs nothing). The rejection of a joint count <= 0 is the guard
    of configureHook, which returns false before checkAllLimitsSize is called:
    nothing is logged and the object is left as it was. *)
Theorem checkAllLimitsSize_accepts_zero_joints :
  checkAllLimitsSize 0 [] [] [] [] [] [] = (true, []) /\
  forall this : SingularityDetector,
    number_of_joints this <= 0 -> configureHook this = (false, this, []).
Proof.
  split; [reflexivity|].
  intros this Hn; unfold configureHook.
  apply Z.leb_le in Hn; rewrite Hn; reflexivity.
Qed.

(** ** The evaluation cycle *)

(** The level returned by the classifier, whenever it returns one, is between
    0 and 3. *)
Lemma loop_body_range
    (position lo1 up1 lo2 up2 lo3 up3 : list float)
    (i : nat) (max temp : Z) (s : Step) :
  0 <= max <= 3 ->
  loop_body position lo1 up1 lo2 up2 lo3 up3 i max temp = Some s ->
  match s with
  | Break max' _ => max' = 3
  | Next max' temp' => 0 <= max' <= 3 /\ 0 <= temp' <= 2
  end.
Proof.
  intros Hmax; unfold loop_body; intros Hs.
  destruct (inside position up3 lo3 i) as [[]|];
    destruct (inside position up2 lo2 i) as [[]|];
    destruct (inside position up1 lo1 i) as [[]|];
    simpl in Hs; simplify_eq; try reflexivity;
    match goal with |- context [?a >=? ?b] => destruct (Z.geb_spec a b) end;
    lia.
Qed.

Lemma joints_loop_range
    (position lo1 up1 lo2 up2 lo3 up3 : list float) (todo : nat) :
  forall (i : nat) (max temp level : Z),
    0 <= max <= 3 ->
    joints_loop position lo1 up1 lo2 up2 lo3 up3 todo i max temp = Some level ->
    0 <= level <= 3.
Proof.
  induction todo as [|todo IH]; simpl; intros i max temp level Hmax Hl.
  - simplify_eq; assumption.
  - destruct (loop_body position lo1 up1 lo2 up2 lo3 up3 i max temp)
      as [s|] eqn:Hs; simpl in Hl; [|discriminate].
    pose proof (loop_body_range _ _ _ _ _ _ _ _ _ _ _ Hmax Hs) as Hr.
    destruct s as [max' temp'|max' temp'].
    + simplify_eq; lia.
    + apply (IH _ _ _ _ (proj1 Hr) Hl).
Qed.

Lemma checkSingularityLevel_range (this : SingularityDetector) (n_ : Z)
    (position lo1 up1 lo2 up2 lo3 up3 : list float) (level : Z) :
  checkSingularityLevel this n_ position lo1 up1 lo2 up2 lo3 up3 = Some level ->
  0 <= level <= 3.
Proof. apply joints_loop_range; lia. Qed.

Lemma updateHook_no_new_sample (this : SingularityDetector) (r : PortRead) :
  no_new_sample r ->
  exists this',
    updateHook this r = Some (this', [singularity_scaling this]) /\
    singularity_scaling this' = singularity_scaling this.
Proof.
  destruct r as [|v|v]; simpl; [| |tauto]; intros _; eexists;
    (split; [reflexivity|reflexivity]).
Qed.

Lemma updateHook_new_sample (this : SingularityDetector) (v : list float)
    (level : Z) :
  checkSingularityLevel this (number_of_joints this) v
    (l1_lower this) (l1_upper this) (l2_lower this) (l2_upper this)
    (l3_lower this) (l3_upper this) = Some level ->
  updateHook this (ReadNewData v) =
    Some (set_singularity_scaling (set_joint_position this v) (level + 1),
          [level + 1]).
Proof.
  intros Hc; pose proof (checkSingularityLevel_range _ _ _ _ _ _ _ _ _ _ Hc).
  unfold updateHook; simpl.
  unfold checkSingularityLevel in *; simpl; rewrite Hc; simpl.
  unfold uint8_of_int; rewrite Z.mod_small by lia; reflexivity.
Qed.

Lemma cycles_no_new_sample (rs : list PortRead) :
  forall this : SingularityDetector,
    Forall no_new_sample rs ->
    exists this',
      cycles this rs =
        Some (this', replicate (length rs) (singularity_scaling this)) /\
      singularity_scaling this' = singularity_scaling this.
Proof.
  induction rs as [|r rs IH]; intros this Hall.
  - exists this; split; reflexivity.
  - apply Forall_cons in Hall as [Hr Hrs].
    destruct (updateHook_no_new_sample this r Hr) as (this1 & Hu & Hs1).
    destruct (IH this1 Hrs) as (this2 & Hc & Hs2).
    exists this2; split; [|congruence].
    simpl; rewrite Hu; simpl; rewrite Hc; simpl; rewrite Hs1; reflexivity.
Qed.

(** C4 (evaluation cycle): in every cycle updateHook writes exactly one
    message to the output port. When the port delivers a new sample on which
    the classifier returns a level, the message and the stored scaling are
    that level plus 1, a value from 1 to 4. When it delivers no new sample,
    the stored scaling is unchanged and the message is that value. In
    particular, after a cycle that classified level 2, five consecutive
    cycles without a new sample each publish 3. *)
Theorem updateHook_publishes_every_cycle (this : SingularityDetector) :
  (forall (v : list float) (level : Z),
      checkSingularityLevel this (number_of_joints this) v
        (l1_lower this) (l1_upper this) (l2_lower this) (l2_upper this)
        (l3_lower this) (l3_upper this) = Some level ->
      exists this',
        updateHook this (ReadNewData v) = Some (this', [level + 1]) /\
        singularity_scaling this' = level + 1 /\
        1 <= level + 1 <= 4) /\
  (forall r : PortRead,
      no_new_sample r ->
      exists this',
        updateHook this r = Some (this', [singularity_scaling this]) /\
        singularity_scaling this' = singularity_scaling this) /\
  (forall (v : list float) (rs : list PortRead),
      checkSingularityLevel this (number_of_joints this) v
        (l1_lower this) (l1_upper this) (l2_lower this) (l2_upper this)
        (l3_lower this) (l3_upper this) = Some 2 ->
      length rs = 5%nat ->
      Forall no_new_sample rs ->
      exists this1 this',
        updateHook this (ReadNewData v) = Some (this1, [3]) /\
        cycles this1 rs = Some (this', [3; 3; 3; 3; 3])).
Proof.
  split; [|split].
  - intros v level Hc; eexists; split; [apply updateHook_new_sample, Hc|].
    split; [reflexivity|].
    apply checkSingularityLevel_range in Hc; lia.
  - apply updateHook_no_new_sample.
  - intros v rs Hc Hlen Hall.
    destruct (cycles_no_new_sample rs
                (set_singularity_scaling (set_joint_position this v) (2 + 1))
                Hall) as (this' & Hcy & _).
    eexists; exists this'; split; [apply (updateHook_new_sample _ _ 2 Hc)|].
    rewrite Hcy, Hlen; reflexivity.
Qed.

(** ** Moving one joint toward band 3 *)

(** One joint whose band 2 is (0, 10), band 1 (20, 30) and band 3 (40, 60):
    on the way from -1 to the center 50 of band 3 the level is 2 at 5 and 0 at
    15. *)
Lemma level_not_monotone_without_nesting :
  ~ level_monotone_toward_center
      {| l1_lower := [20]%float; l1_upper := [30]%float;
         l2_lower := [0]%float; l2_upper := [10]%float;
         l3_lower := [40]%float; l3_upper := [60]%float;
         number_of_joints := 1; singularity_scaling := 1;
         joint_position := [0]%float |}
      [0]%float [20]%float [30]%float [0]%float [10]%float [40]%float
      [60]%float 0%nat (-1)%float 5%float 15%float.
Proof.
  intros H.
  destruct (H 40%float 60%float eq_refl eq_refl) as (l & l' & Hl & Hl' & Hle).
  - intros j Hj Hlt; simpl in Hlt; lia.
  - reflexivity.
  - left; split; reflexivity.
  - left; split; reflexivity.
  - vm_compute in Hl, Hl'; simplify_eq; lia.
Qed.

(** Inside a band at [p], and moving toward a point strictly inside band 3,
    which the band contains: still inside the band at [p']. *)
Lemma in_band_toward (a b a3 b3 c p p' : float) :
  (a <=? a3)%float = true -> (b3 <=? b)%float = true ->
  in_band a3 c b3 = true ->
  toward c p p' ->
  in_band a p b = true -> in_band a p' b = true.
Proof.
  unfold in_band; intros Ha Hb [Hc1 Hc2]%andb_prop Hmove [Hp1 Hp2]%andb_prop.
  apply andb_true_intro.
  destruct Hmove as [[H1 H2]|[H1 H2]]; split.
  - apply (FloatOrder.ltb_leb_trans a p p'); assumption.
  - apply (FloatOrder.ltb_leb_trans p' b3 b); [|assumption].
    apply (FloatOrder.leb_ltb_trans p' c b3); assumption.
  - apply (FloatOrder.leb_ltb_trans a a3 p'); [assumption|].
    apply (FloatOrder.ltb_leb_trans a3 c p'); assumption.
  - apply (FloatOrder.leb_ltb_trans p' p b); assumption.
Qed.

(** The local level of a joint with nested bands does not decrease on the way
    to a point strictly inside band 3. *)
Lemma local_level_toward (a1 b1 a2 b2 a3 b3 c p p' : float) :
  nested a1 b1 a2 b2 a3 b3 ->
  in_band a3 c b3 = true ->
  toward c p p' ->
  local_level p a1 b1 a2 b2 a3 b3 <= local_level p' a1 b1 a2 b2 a3 b3.
Proof.
  intros (Ha12 & Ha23 & Hb32 & Hb21) Hc Hmove.
  pose proof Hc as [Ha3 Hb3]%andb_prop.
  apply FloatOrder.ltb_leb_refl_l in Ha3.
  apply FloatOrder.ltb_leb_refl_r in Hb3.
  pose proof (in_band_toward a3 b3 a3 b3 c p p' Ha3 Hb3 Hc Hmove) as H3.
  pose proof (in_band_toward a2 b2 a3 b3 c p p' Ha23 Hb32 Hc Hmove) as H2.
  pose proof (in_band_toward a1 b1 a3 b3 c p p'
                (FloatOrder.leb_trans _ _ _ Ha12 Ha23)
                (FloatOrder.leb_trans _ _ _ Hb32 Hb21)
                Hc Hmove) as H1.
  unfold local_level.
  destruct (in_band a3 p b3), (in_band a2 p b2), (in_band a1 p b1);
    rewrite ?H3, ?H2, ?H1 by reflexivity; repeat case_match; lia.
Qed.

(** A list of levels that is 0 everywhere but at index [i] has the level at
    [i] as its largest element. *)
Lemma foldr_max_single (levels : list Z) (i : nat) (k : Z) :
  0 <= k ->
  levels !! i = Some k ->
  (forall j, j <> i -> (j < length levels)%nat -> levels !! j = Some 0) ->
  foldr Z.max 0 levels = k.
Proof.
  intros Hk Hi Hothers.
  assert (Hge : k <= foldr Z.max 0 levels)
    by (apply foldr_max_ge, list_elem_of_lookup; eauto).
  assert (Hle : foldr Z.max 0 levels <= k); [|lia].
  apply foldr_max_le; [assumption|].
  apply Forall_forall; intros x Hx.
  apply list_elem_of_lookup in Hx as [j Hj].
  destruct (decide (j = i)) as [->|Hne]; [simplify_eq; lia|].
  rewrite (Hothers j Hne (lookup_lt_Some _ _ _ Hj)) in Hj; simplify_eq; lia.
Qed.

(** With the other joints outside every band, the classifier returns the
    local level of joint [i]. *)
Lemma checkSingularityLevel_single_joint (this : SingularityDetector) (n_ : Z)
    (position lo1 up1 lo2 up2 lo3 up3 : list float)
    (i : nat) (q a1 b1 a2 b2 a3 b3 : float) :
  length_matched (number_of_joints this) position lo1 up1 lo2 up2 lo3 up3 ->
  (i < Z.to_nat (number_of_joints this))%nat ->
  lo1 !! i = Some a1 -> up1 !! i = Some b1 ->
  lo2 !! i = Some a2 -> up2 !! i = Some b2 ->
  lo3 !! i = Some a3 -> up3 !! i = Some b3 ->
  (forall j, j <> i -> (j < Z.to_nat (number_of_joints this))%nat ->
             joint_level position lo1 up1 lo2 up2 lo3 up3 j = Some 0) ->
  checkSingularityLevel this n_ (<[i := q]> position)
    lo1 up1 lo2 up2 lo3 up3 =
  Some (local_level q a1 b1 a2 b2 a3 b3).
Proof.
  intros Hlen Hi E1 E2 E3 E4 E5 E6 Hothers.
  assert (Hlen' : length_matched (number_of_joints this) (<[i := q]> position)
                    lo1 up1 lo2 up2 lo3 up3).
  { unfold length_matched, size in *; rewrite length_insert; assumption. }
  destruct (checkSingularityLevel_levels _ _ _ _ _ _ _ this n_ Hlen')
    as (levels & Hm & Hc).
  destruct (mapM_seq_lookup _ _ _ _ _ _ _ _ _ Hm) as (Hl & Hat).
  rewrite Hc; f_equal.
  apply (foldr_max_single levels i); [apply local_level_range| |].
  - rewrite <- Hat by assumption.
    unfold joint_level.
    rewrite list_lookup_insert_eq, E1, E2, E3, E4, E5, E6; [reflexivity|].
    destruct Hlen as [Hp _]; unfold size in Hp; lia.
  - intros j Hne Hj; rewrite <- Hat by lia.
    rewrite <- (Hothers j Hne ltac:(lia)).
    unfold joint_level; rewrite list_lookup_insert_ne by congruence.
    reflexivity.
Qed.

(** C8, amended (monotonic boundary): for a single joint i whose three bands
    are nested (l1_lower[i] <= l2_lower[i] <= l3_lower[i] and l3_upper[i] <=
    l2_upper[i] <= l1_upper[i]), all other joints held outside every band, as
    position[i] moves from p to p' toward a point c strictly inside joint i's
    band 3 (p <= p' <= c or c <= p' <= p), the level classified at p is at
    most the level classified at p'. Read from p' to p, the level does not
    increase on the way back out. The center of band 3 is such a point c
    whenever it lies strictly inside the band. *)
Theorem level_monotone_toward_band3_nested
    (this : SingularityDetector) (number_of_joints_ : Z)
    (position lo1 up1 lo2 up2 lo3 up3 : list float)
    (i : nat) (a1 b1 a2 b2 a3 b3 c p p' : float) :
  length_matched (number_of_joints this) position lo1 up1 lo2 up2 lo3 up3 ->
  (i < Z.to_nat (number_of_joints this))%nat ->
  lo1 !! i = Some a1 -> up1 !! i = Some b1 ->
  lo2 !! i = Some a2 -> up2 !! i = Some b2 ->
  lo3 !! i = Some a3 -> up3 !! i = Some b3 ->
  (forall j, j <> i -> (j < Z.to_nat (number_of_joints this))%nat ->
             joint_level position lo1 up1 lo2 up2 lo3 up3 j = Some 0) ->
  nested a1 b1 a2 b2 a3 b3 ->
  in_band a3 c b3 = true ->
  toward c p p' ->
  exists l l',
    checkSingularityLevel this number_of_joints_
      (<[i := p]> position) lo1 up1 lo2 up2 lo3 up3 = Some l /\
    checkSingularityLevel this number_of_joints_
      (<[i := p']> position) lo1 up1 lo2 up2 lo3 up3 = Some l' /\
    l <= l'.
Proof.
  intros Hlen Hi E1 E2 E3 E4 E5 E6 Hothers Hnest Hc Hmove.
  exists (local_level p a1 b1 a2 b2 a3 b3), (local_level p' a1 b1 a2 b2 a3 b3).
  split; [|split].
  - apply checkSingularityLevel_single_joint; assumption.
  - apply checkSingularityLevel_single_joint; assumption.
  - apply (local_level_toward a1 b1 a2 b2 a3 b3 c); assumption.
Qed.

(** ** Dependence on the state of the object *)

(** On length-matched input the level is determined by the position and the
    six sequences: two objects for which the input is length-matched return
    the same level, whatever their other members and the arguments
    [number_of_joints_] are. *)
Lemma checkSingularityLevel_deterministic_when_matched
    (this1 this2 : SingularityDetector) (n1 n2 : Z)
    (position lo1 up1 lo2 up2 lo3 up3 : list float) :
  length_matched (number_of_joints this1) position lo1 up1 lo2 up2 lo3 up3 ->
  length_matched (number_of_joints this2) position lo1 up1 lo2 up2 lo3 up3 ->
  checkSingularityLevel this1 n1 position lo1 up1 lo2 up2 lo3 up3 =
  checkSingularityLevel this2 n2 position lo1 up1 lo2 up2 lo3 up3.
Proof.
  intros [H1 _] [H2 _]; unfold checkSingularityLevel; congruence.
Qed.

(** C7 (determinism, no hidden state): the classifier is meant to be a pure
    function of its explicit inputs. The code reads the member
    number_of_joints of the object instead of its argument number_of_joints_:
    two calls with the same arguments (joint count 2, position [5, 0], the
    bands (-3, 3), (-2, 2), (-1, 1) for both joints), on objects that differ
    only in that member, return level 0 (member 1: joint 1 is never scanned)
    and level 3 (member 2). *)
Theorem checkSingularityLevel_depends_on_member :
  checkSingularityLevel (Examples.detector 1) 2 Examples.position03
    Examples.lo1 Examples.up1 Examples.lo2 Examples.up2
    Examples.lo3 Examples.up3 = Some 0 /\
  checkSingularityLevel (Examples.detector 2) 2 Examples.position03
    Examples.lo1 Examples.up1 Examples.lo2 Examples.up2
    Examples.lo3 Examples.up3 = Some 3.
Proof. split; reflexivity. Qed.

(** ** The scenarios of the specification *)

Example scenario_A :
  Examples.classify Examples.detectorA Examples.positionA = Some 1 /\
  exists this',
    updateHook Examples.detectorA (ReadNewData Examples.positionA) =
      Some (this', [2]).
Proof. split; [reflexivity|eexists; reflexivity]. Qed.

Example scenario_B :
  Examples.classify (Examples.detector 2) Examples.position03 = Some 3.
Proof. reflexivity. Qed.

Example scenario_C :
  checkAllLimitsSize 3 [1; 2; 3]%float [1; 2; 3]%float [1; 2]%float
    [1; 2; 3]%float [1; 2; 3]%float [1; 2; 3]%float =
  (false, [{| log_index := 1; log_bound := Lower; log_size := 2;
              log_expected := 3 |}]).
Proof. reflexivity. Qed.

(** ** The theorems at concrete inputs *)

Lemma checkSingularityLevel_is_max_local_level_witness :
  0 < number_of_joints (Examples.detector 2) /\
  exists level,
    checkSingularityLevel (Examples.detector 2) 7 Examples.position03
      Examples.lo1 Examples.up1 Examples.lo2 Examples.up2
      Examples.lo3 Examples.up3 = Some level /\
    (exists i, (i < 2)%nat /\
               joint_level Examples.position03
                 Examples.lo1 Examples.up1 Examples.lo2 Examples.up2
                 Examples.lo3 Examples.up3 i = Some level) /\
    (forall i, (i < 2)%nat ->
               exists k,
                 joint_level Examples.position03
                   Examples.lo1 Examples.up1 Examples.lo2 Examples.up2
                   Examples.lo3 Examples.up3 i = Some k /\ k <= level).
Proof.
  split; [reflexivity|].
  apply (checkSingularityLevel_is_max_local_level Examples.position03
           Examples.lo1 Examples.up1 Examples.lo2 Examples.up2
           Examples.lo3 Examples.up3 (Examples.detector 2) 7).
  - reflexivity.
  - unfold length_matched; repeat split; reflexivity.
Defined.

Lemma checkSingularityLevel_equals_reference_witness :
  length_matched 2 Examples.position03
    Examples.lo1 Examples.up1 Examples.lo2 Examples.up2
    Examples.lo3 Examples.up3 /\
  checkSingularityLevel (Examples.detector 2) 2 Examples.position03
    Examples.lo1 Examples.up1 Examples.lo2 Examples.up2
    Examples.lo3 Examples.up3 =
  classify_reference 2 Examples.position03
    Examples.lo1 Examples.up1 Examples.lo2 Examples.up2
    Examples.lo3 Examples.up3.
Proof.
  assert (H : length_matched 2 Examples.position03
                Examples.lo1 Examples.up1 Examples.lo2 Examples.up2
                Examples.lo3 Examples.up3)
    by (unfold length_matched; repeat split; reflexivity).
  split; [exact H|].
  exact (proj2 (checkSingularityLevel_equals_reference Examples.position03
                  Examples.lo1 Examples.up1 Examples.lo2 Examples.up2
                  Examples.lo3 Examples.up3 (Examples.detector 2) 2 H)).
Defined.

Lemma boundary_is_outside_band_witness :
  inside [5; 1]%float Examples.up3 Examples.lo3 1 = Some false /\
  forall (max temp : Z) (s : Step),
    loop_body [5; 1]%float Examples.lo1 Examples.up1 Examples.lo2 Examples.up2
      Examples.lo3 Examples.up3 1 max temp = Some s ->
    temp_of s <> 3.
Proof.
  exact (boundary_is_outside_band [5; 1]%float
           Examples.lo1 Examples.up1 Examples.lo2 Examples.up2
           Examples.lo3 Examples.up3 3 1%nat 1%float (-1)%float 1%float
           (or_intror (or_intror eq_refl)) eq_refl eq_refl eq_refl
           (or_intror (or_introl eq_refl))).
Defined.

Lemma checkSingularityLevel_argument_unused_witness :
  checkSingularityLevel (Examples.detector 2) 2 Examples.position03
    Examples.lo1 Examples.up1 Examples.lo2 Examples.up2
    Examples.lo3 Examples.up3 =
  checkSingularityLevel Examples.detectorA 99 Examples.position03
    Examples.lo1 Examples.up1 Examples.lo2 Examples.up2
    Examples.lo3 Examples.up3.
Proof.
  apply (checkSingularityLevel_argument_unused
           (Examples.detector 2) Examples.detectorA 2 99).
  reflexivity.
Defined.

Lemma checkAllLimitsSize_stops_at_first_mismatch_witness :
  exists (k : nat) (t : Bound * Z * list float),
    checked_order [1; 2]%float [1; 2; 3]%float [1]%float [1; 2; 3]%float
      [1; 2; 3]%float [1; 2; 3]%float !! k = Some t /\
    wrong_size t.2 3 = true /\
    (forall j t',
        (j < k)%nat ->
        checked_order [1; 2]%float [1; 2; 3]%float [1]%float [1; 2; 3]%float
          [1; 2; 3]%float [1; 2; 3]%float !! j = Some t' ->
        wrong_size t'.2 3 = false) /\
    checkAllLimitsSize 3 [1; 2]%float [1; 2; 3]%float [1]%float
      [1; 2; 3]%float [1; 2; 3]%float [1; 2; 3]%float =
    (false, [diagnostic 3 t]).
Proof.
  apply (checkAllLimitsSize_stops_at_first_mismatch 3
           [1; 2]%float [1; 2; 3]%float [1]%float [1; 2; 3]%float
           [1; 2; 3]%float [1; 2; 3]%float).
  vm_compute; lia.
Defined.

Lemma configureHook_validation_complete_witness :
  int_range (number_of_joints (Examples.detector 2)) /\
  (configureHook (Examples.detector 2)).1.1 = true.
Proof.
  assert (Hr : int_range (number_of_joints (Examples.detector 2)))
    by (unfold int_range; simpl; lia).
  split; [exact Hr|].
  apply (proj1 (configureHook_validation_complete (Examples.detector 2) Hr)).
  repeat split; reflexivity.
Defined.

Lemma checkAllLimitsSize_accepts_zero_joints_witness :
  number_of_joints (Examples.detector 0) <= 0 /\
  configureHook (Examples.detector 0) = (false, Examples.detector 0, []).
Proof.
  split; [simpl; lia|].
  apply (proj2 checkAllLimitsSize_accepts_zero_joints (Examples.detector 0)).
  simpl; lia.
Defined.

Lemma updateHook_publishes_every_cycle_witness :
  (exists this',
      updateHook (Examples.detector 2) (ReadNewData Examples.position02) =
        Some (this', [2 + 1]) /\
      singularity_scaling this' = 2 + 1 /\ 1 <= 2 + 1 <= 4) /\
  (exists this',
      updateHook (Examples.detector 2) ReadNoData =
        Some (this', [singularity_scaling (Examples.detector 2)]) /\
      singularity_scaling this' =
        singularity_scaling (Examples.detector 2)) /\
  (exists this1 this',
      updateHook (Examples.detector 2) (ReadNewData Examples.position02) =
        Some (this1, [3]) /\
      cycles this1
        [ReadNoData; ReadOldData Examples.position03; ReadNoData; ReadNoData;
         ReadNoData] = Some (this', [3; 3; 3; 3; 3])).
Proof.
  destruct (updateHook_publishes_every_cycle (Examples.detector 2))
    as (Hnew & Hold & Hfive).
  split; [|split].
  - apply (Hnew Examples.position02 2); reflexivity.
  - apply (Hold ReadNoData); exact I.
  - apply (Hfive Examples.position02); [reflexivity|reflexivity|].
    repeat constructor.
Defined.

Lemma level_monotone_toward_band3_nested_witness :
  exists l l',
    checkSingularityLevel (Examples.detector 2) 2
      (<[1%nat := (-2.5)%float]> Examples.position03)
      Examples.lo1 Examples.up1 Examples.lo2 Examples.up2
      Examples.lo3 Examples.up3 = Some l /\
    checkSingularityLevel (Examples.detector 2) 2
      (<[1%nat := (-1.5)%float]> Examples.position03)
      Examples.lo1 Examples.up1 Examples.lo2 Examples.up2
      Examples.lo3 Examples.up3 = Some l' /\
    l <= l'.
Proof.
  apply (level_monotone_toward_band3_nested (Examples.detector 2) 2
           Examples.position03
           Examples.lo1 Examples.up1 Examples.lo2 Examples.up2
           Examples.lo3 Examples.up3 1%nat
           (-3)%float 3%float (-2)%float 2%float (-1)%float 1%float
           0%float (-2.5)%float (-1.5)%float);
    try reflexivity.
  - unfold length_matched; repeat split; reflexivity.
  - simpl; lia.
  - intros j Hne Hlt; destruct j as [|[|j]];
      [reflexivity|congruence|simpl in Hlt; lia].
  - unfold nested; repeat split; reflexivity.
  - left; split; reflexivity.
Defined.

(** ** Further properties of the validation *)

(** X1: checkAllLimitsSize returns true exactly when it logs nothing, and then
    none of the six sequences has the wrong size; when it returns false it has
    logged exactly one line, and that line is the diagnostic of one of the six
    sequences, whose size does differ from the joint count. *)
Theorem checkAllLimitsSize_result_and_log (number_of_joints_ : Z)
    (l1_lower_ l1_upper_ l2_lower_ l2_upper_ l3_lower_ l3_upper_ : list float) :
  let r := checkAllLimitsSize number_of_joints_ l1_lower_ l1_upper_ l2_lower_
             l2_upper_ l3_lower_ l3_upper_ in
  (r = (true, []) /\
   count_wrong number_of_joints_ l1_lower_ l1_upper_ l2_lower_ l2_upper_
     l3_lower_ l3_upper_ = 0%nat) \/
  (r.1 = false /\
   exists t,
     t ∈ checked_order l1_lower_ l1_upper_ l2_lower_ l2_upper_ l3_lower_
           l3_upper_ /\
     wrong_size t.2 number_of_joints_ = true /\
     r.2 = [diagnostic number_of_joints_ t]).
Proof.
  unfold checkAllLimitsSize, count_wrong, checked_order; simpl.
  destruct (wrong_size l1_lower_ number_of_joints_) eqn:E1;
    [right; split; [reflexivity|];
     exists (Lower, 0, l1_lower_); repeat split; [|assumption];
     repeat constructor|].
  destruct (wrong_size l2_lower_ number_of_joints_) eqn:E2;
    [right; split; [reflexivity|];
     exists (Lower, 1, l2_lower_); repeat split; [|assumption];
     repeat constructor|].
  destruct (wrong_size l3_lower_ number_of_joints_) eqn:E3;
    [right; split; [reflexivity|];
     exists (Lower, 2, l3_lower_); repeat split; [|assumption];
     repeat constructor|].
  destruct (wrong_size l1_upper_ number_of_joints_) eqn:E4;
    [right; split; [reflexivity|];
     exists (Upper, 0, l1_upper_); repeat split; [|assumption];
     repeat constructor|].
  destruct (wrong_size l2_upper_ number_of_joints_) eqn:E5;
    [right; split; [reflexivity|];
     exists (Upper, 1, l2_upper_); repeat split; [|assumption];
     repeat constructor|].
  destruct (wrong_size l3_upper_ number_of_joints_) eqn:E6;
    [right; split; [reflexivity|];
     exists (Upper, 2, l3_upper_); repeat split; [|assumption];
     repeat constructor|].
  left; split; reflexivity.
Qed.

Lemma size_t_of_int_negative (n : Z) :
  int_range n -> n < 0 -> 2 ^ 63 <= size_t_of_int n.
Proof.
  unfold int_range, size_t_of_int; intros Hr Hn.
  replace n with (n + 2 ^ 64 - 1 * 2 ^ 64) by lia.
  rewrite Zminus_mod, Z_mod_mult, Z.sub_0_r, Z.mod_mod by lia.
  rewrite Z.mod_small; lia.
Qed.

(** X2: for a joint count that is not positive, checkAllLimitsSize accepts
    only the joint count 0 with six empty sequences. A negative count is
    converted to a size_t of at least 2^63, which no sequence of fewer than
    2^63 entries matches. *)
Theorem checkAllLimitsSize_nonpositive (number_of_joints_ : Z)
    (l1_lower_ l1_upper_ l2_lower_ l2_upper_ l3_lower_ l3_upper_ : list float) :
  int_range number_of_joints_ ->
  number_of_joints_ <= 0 ->
  size l1_lower_ < 2 ^ 63 ->
  ((checkAllLimitsSize number_of_joints_ l1_lower_ l1_upper_ l2_lower_
      l2_upper_ l3_lower_ l3_upper_).1 = true <->
   number_of_joints_ = 0 /\
   l1_lower_ = [] /\ l1_upper_ = [] /\ l2_lower_ = [] /\ l2_upper_ = [] /\
   l3_lower_ = [] /\ l3_upper_ = []).
Proof.
  intros Hr Hn Hs; rewrite checkAllLimitsSize_true.
  assert (Hnil : forall v : list float, size v = 0 <-> v = []).
  { intros v; unfold size; split; [|intros ->; reflexivity].
    destruct v; [reflexivity|simpl; lia]. }
  unfold wrong_size; rewrite !negb_false_iff, !Z.eqb_eq.
  destruct (Z.eq_dec number_of_joints_ 0) as [-> | Hne].
  - change (size_t_of_int 0) with 0; rewrite !Hnil; tauto.
  - pose proof (size_t_of_int_negative number_of_joints_ Hr ltac:(lia)).
    split; [intros [H1 _]; lia|intros [H0 _]; lia].
Qed.

(** X3: a failed configureHook leaves the object as it was. *)
Theorem configureHook_failure_keeps_object (this : SingularityDetector) :
  (configureHook this).1.1 = false -> (configureHook this).1.2 = this.
Proof.
  unfold configureHook.
  destruct (number_of_joints this <=? 0); [reflexivity|].
  destruct (checkAllLimitsSize _ _ _ _ _ _ _) as [[] log]; simpl;
    [discriminate|reflexivity].
Qed.

(** A successful [checkAllLimitsSize] has logged nothing. *)
Lemma checkAllLimitsSize_true_log (n_ : Z)
    (l1_lower_ l1_upper_ l2_lower_ l2_upper_ l3_lower_ l3_upper_ : list float) :
  (checkAllLimitsSize n_ l1_lower_ l1_upper_ l2_lower_ l2_upper_ l3_lower_
     l3_upper_).1 = true ->
  checkAllLimitsSize n_ l1_lower_ l1_upper_ l2_lower_ l2_upper_ l3_lower_
    l3_upper_ = (true, []).
Proof.
  unfold checkAllLimitsSize; simpl.
  destruct (wrong_size l1_lower_ n_), (wrong_size l2_lower_ n_),
    (wrong_size l3_lower_ n_), (wrong_size l1_upper_ n_),
    (wrong_size l2_upper_ n_), (wrong_size l3_upper_ n_); simpl;
    congruence.
Qed.

(** What [configureHook] returns when it succeeds. *)
Lemma configureHook_success (this : SingularityDetector) :
  (configureHook this).1.1 = true ->
  configureHook this =
    (true,
     set_singularity_scaling
       (set_joint_position this (resize (number_of_joints this))) 1,
     []).
Proof.
  unfold configureHook.
  destruct (number_of_joints this <=? 0); [discriminate|].
  pose proof (checkAllLimitsSize_true_log (number_of_joints this)
                (l1_lower this) (l1_upper this) (l2_lower this)
                (l2_upper this) (l3_lower this) (l3_upper this)) as Hlog.
  destruct (checkAllLimitsSize _ _ _ _ _ _ _) as [[] log]; simpl;
    [|discriminate].
  intros _; specialize (Hlog eq_refl); injection Hlog as ->; reflexivity.
Qed.

(** The sizes a successful [configureHook] has checked. *)
Lemma configureHook_sizes (this : SingularityDetector) :
  int_range (number_of_joints this) ->
  (configureHook this).1.1 = true ->
  0 < number_of_joints this /\
  size (l1_lower this) = number_of_joints this /\
  size (l1_upper this) = number_of_joints this /\
  size (l2_lower this) = number_of_joints this /\
  size (l2_upper this) = number_of_joints this /\
  size (l3_lower this) = number_of_joints this /\
  size (l3_upper this) = number_of_joints this.
Proof.
  intros Hr; rewrite configureHook_result; intros [Hn Hc]%andb_prop.
  apply negb_true_iff, Z.leb_gt in Hn; split; [assumption|].
  apply checkAllLimitsSize_true in Hc.
  rewrite !(wrong_size_false _ _ Hr Hn) in Hc; assumption.
Qed.

Lemma size_resize (n : Z) : 0 <= n -> size (resize n) = n.
Proof.
  intros Hn; unfold size, resize; rewrite length_replicate; lia.
Qed.

(** X4: after a successful configureHook the joint count and the six limit
    sequences are those given, the scaling is 1, joint_position has one entry
    per joint, nothing was logged, and position and limits are length-matched:
    the object is ready for the classifier. *)
Theorem configureHook_success_state (this : SingularityDetector) :
  int_range (number_of_joints this) ->
  (configureHook this).1.1 = true ->
  same_configuration this (configureHook this).1.2 /\
  singularity_scaling (configureHook this).1.2 = 1 /\
  (configureHook this).2 = [] /\
  length_matched (number_of_joints this)
    (joint_position (configureHook this).1.2)
    (l1_lower (configureHook this).1.2) (l1_upper (configureHook this).1.2)
    (l2_lower (configureHook this).1.2) (l2_upper (configureHook this).1.2)
    (l3_lower (configureHook this).1.2) (l3_upper (configureHook this).1.2).
Proof.
  intros Hr Hok.
  destruct (configureHook_sizes this Hr Hok) as (Hn & Hsizes).
  rewrite (configureHook_success this Hok); simpl.
  repeat split; try reflexivity; try tauto.
  apply size_resize; lia.
Qed.

(** X5: configuring an object that has just been configured successfully
    succeeds again and changes nothing. *)
Theorem configureHook_idempotent (this : SingularityDetector) :
  (configureHook this).1.1 = true ->
  configureHook (configureHook this).1.2 =
    (true, (configureHook this).1.2, []).
Proof.
  intros Hok.
  assert (Hok' : (configureHook (configureHook this).1.2).1.1 = true).
  { rewrite configureHook_result.
    rewrite (configureHook_success this Hok); simpl.
    rewrite <- configureHook_result; assumption. }
  rewrite (configureHook_success _ Hok').
  rewrite (configureHook_success this Hok); reflexivity.
Qed.

(** X6: a component that has only been constructed, whose limit sequences
    are still empty, cannot be configured, whatever the member
    number_of_joints holds: for a count that is not positive configureHook
    returns false without a log line, and for a positive count
    checkAllLimitsSize reports the first lower limit, of size 0. *)
Theorem configureHook_after_constructor (n : Z) :
  int_range n ->
  configureHook (SingularityDetector_ctor n) =
    (false, SingularityDetector_ctor n,
     if n <=? 0 then []
     else [{| log_index := 0; log_bound := Lower; log_size := 0;
              log_expected := n |}]).
Proof.
  intros Hr; unfold configureHook; simpl.
  destruct (Z.leb_spec n 0) as [Hn|Hn]; [reflexivity|].
  unfold checkAllLimitsSize; simpl.
  unfold wrong_size at 1.
  rewrite (size_t_of_int_positive n Hr Hn).
  change (size []) with 0.
  destruct (Z.eqb_spec 0 n) as [Heq|Hne]; [lia|reflexivity].
Qed.

(** ** Further properties of the evaluation cycle *)

(** One cycle, whenever it returns: the configuration is kept, one message is
    written, and it is the scaling stored after the cycle. *)
Lemma updateHook_cycle (this this' : SingularityDetector) (r : PortRead)
    (out : list Z) :
  updateHook this r = Some (this', out) ->
  same_configuration this this' /\ out = [singularity_scaling this'] /\
  (singularity_scaling this' = singularity_scaling this \/
   1 <= singularity_scaling this' <= 4).
Proof.
  unfold updateHook, same_configuration.
  destruct r as [|v|v]; simpl.
  - intros [= <- <-]; simpl; tauto.
  - intros [= <- <-]; simpl; tauto.
  - destruct (checkSingularityLevel _ _ _ _ _ _ _ _ _) as [level|] eqn:Hc;
      simpl; [|discriminate].
    intros [= <- <-]; simpl.
    apply checkSingularityLevel_range in Hc.
    unfold uint8_of_int; rewrite Z.mod_small by lia.
    repeat split; try reflexivity; right; lia.
Qed.

Lemma same_configuration_trans (this0 this1 this2 : SingularityDetector) :
  same_configuration this0 this1 -> same_configuration this1 this2 ->
  same_configuration this0 this2.
Proof.
  unfold same_configuration.
  intros (? & ? & ? & ? & ? & ? & ?) (? & ? & ? & ? & ? & ? & ?).
  repeat split; congruence.
Qed.

(** X7: whatever the port delivers, the cycles that return never change the
    joint count or the six limit sequences, and they write exactly one
    message per cycle. *)
Theorem cycles_keep_configuration (rs : list PortRead) :
  forall (this this' : SingularityDetector) (outs : list Z),
    cycles this rs = Some (this', outs) ->
    same_configuration this this' /\ length outs = length rs.
Proof.
  induction rs as [|r rs IH]; simpl; intros this this' outs Hc.
  - injection Hc as <- <-; unfold same_configuration; tauto.
  - destruct (updateHook this r) as [[this1 out]|] eqn:Hu; simpl in Hc;
      [|discriminate].
    destruct (cycles this1 rs) as [[this2 outs']|] eqn:Hcy; simpl in Hc;
      [|discriminate].
    injection Hc as <- <-.
    destruct (updateHook_cycle _ _ _ _ Hu) as (Hk1 & -> & _).
    destruct (IH _ _ _ Hcy) as (Hk2 & Hlen).
    split; [|simpl; lia].
    apply (same_configuration_trans _ _ _ Hk1 Hk2).
Qed.

(** X8: when the stored scaling is between 1 and 4, it stays between 1 and 4
    through any cycles that return, every message written is between 1 and 4,
    and the last message is the scaling stored at the end. *)
Theorem cycles_scaling_in_range (rs : list PortRead) :
  forall (this this' : SingularityDetector) (outs : list Z),
    1 <= singularity_scaling this <= 4 ->
    cycles this rs = Some (this', outs) ->
    1 <= singularity_scaling this' <= 4 /\
    Forall (fun m => 1 <= m <= 4) outs /\
    (rs <> [] -> last outs = Some (singularity_scaling this')).
Proof.
  induction rs as [|r rs IH]; simpl; intros this this' outs Hs Hc.
  - injection Hc as <- <-; repeat split; [lia|lia|constructor|congruence].
  - destruct (updateHook this r) as [[this1 out]|] eqn:Hu; simpl in Hc;
      [|discriminate].
    destruct (cycles this1 rs) as [[this2 outs']|] eqn:Hcy; simpl in Hc;
      [|discriminate].
    injection Hc as <- <-.
    destruct (updateHook_cycle _ _ _ _ Hu) as (_ & -> & Hs1).
    assert (Hr1 : 1 <= singularity_scaling this1 <= 4)
      by (destruct Hs1 as [-> | H]; assumption).
    destruct (IH _ _ _ Hr1 Hcy) as (Hr2 & Hall & Hlast).
    split; [assumption|split].
    + constructor; assumption.
    + intros _; destruct rs as [|r' rs'].
      * simpl in Hcy; injection Hcy as <- <-; reflexivity.
      * specialize (Hlast ltac:(congruence)).
        simpl; destruct outs' as [|m outs'']; [discriminate|exact Hlast].
Qed.

(** A cycle of an object whose limits have the size of the joint count, on a
    delivery that fits, returns. *)
Lemma updateHook_fitting_sample (this : SingularityDetector) (r : PortRead) :
  size (l1_lower this) = number_of_joints this ->
  size (l1_upper this) = number_of_joints this ->
  size (l2_lower this) = number_of_joints this ->
  size (l2_upper this) = number_of_joints this ->
  size (l3_lower this) = number_of_joints this ->
  size (l3_upper this) = number_of_joints this ->
  sample_fits (number_of_joints this) r ->
  is_Some (updateHook this r).
Proof.
  intros H1 H2 H3 H4 H5 H6 Hfit.
  destruct r as [|v|v]; [eexists; reflexivity|eexists; reflexivity|].
  simpl in Hfit.
  destruct (checkSingularityLevel_levels v (l1_lower this) (l1_upper this)
              (l2_lower this) (l2_upper this) (l3_lower this) (l3_upper this)
              this (number_of_joints this)) as (levels & _ & Hc).
  { unfold length_matched; tauto. }
  rewrite (updateHook_new_sample this v _ Hc); eauto.
Qed.

(** X9: after a successful configureHook, any number of cycles in which every
    new sample has one entry per joint runs without an out-of-range read,
    writes one message per cycle, and every message is between 1 and 4. *)
Theorem configured_cycles_are_safe (this : SingularityDetector)
    (rs : list PortRead) :
  int_range (number_of_joints this) ->
  (configureHook this).1.1 = true ->
  Forall (sample_fits (number_of_joints this)) rs ->
  exists (this' : SingularityDetector) (outs : list Z),
    cycles (configureHook this).1.2 rs = Some (this', outs) /\
    length outs = length rs /\
    Forall (fun m => 1 <= m <= 4) outs.
Proof.
  intros Hr Hok Hfit.
  destruct (configureHook_sizes this Hr Hok) as (_ & Hsizes).
  rewrite (configureHook_success this Hok); simpl.
  set (this0 := set_singularity_scaling _ 1).
  assert (Hcfg : same_configuration this this0)
    by (unfold same_configuration; simpl; tauto).
  assert (Hs0 : 1 <= singularity_scaling this0 <= 4) by (simpl; lia).
  clearbody this0; revert this0 Hcfg Hs0.
  induction Hfit as [|r rs Hr0 Hrs IH]; intros this0 Hcfg Hs0.
  - exists this0, []; repeat split; constructor.
  - pose proof Hcfg as (Hn & E1 & E2 & E3 & E4 & E5 & E6).
    destruct (updateHook_fitting_sample this0 r) as [[this1 out] Hu];
      rewrite ?E1, ?E2, ?E3, ?E4, ?E5, ?E6, ?Hn; try tauto.
    destruct (updateHook_cycle _ _ _ _ Hu) as (Hk & -> & Hs1).
    assert (Hr1 : 1 <= singularity_scaling this1 <= 4)
      by (destruct Hs1 as [-> | H]; assumption).
    destruct (IH this1 (same_configuration_trans _ _ _ Hcfg Hk) Hr1)
      as (this2 & outs & Hcy & Hlen & Hall).
    exists this2, (singularity_scaling this1 :: outs).
    simpl; rewrite Hu; simpl; rewrite Hcy; simpl.
    repeat split; [lia|constructor; assumption].
Qed.

(** ** Further properties of the classifier *)

Section ClassifierReads.

Variables position lo1 up1 lo2 up2 lo3 up3 : list float.
Variables position' lo1' up1' lo2' up2' lo3' up3' : list float.

(** The two inputs have the same entries at joint [j]. *)
Let agree_at (j : nat) : Prop :=
  position !! j = position' !! j /\
  lo1 !! j = lo1' !! j /\ up1 !! j = up1' !! j /\
  lo2 !! j = lo2' !! j /\ up2 !! j = up2' !! j /\
  lo3 !! j = lo3' !! j /\ up3 !! j = up3' !! j.

Lemma loop_body_agree (i : nat) (max temp : Z) :
  agree_at i ->
  loop_body position lo1 up1 lo2 up2 lo3 up3 i max temp =
  loop_body position' lo1' up1' lo2' up2' lo3' up3' i max temp.
Proof.
  intros (Hp & H1 & H2 & H3 & H4 & H5 & H6).
  unfold loop_body, inside.
  rewrite Hp, H1, H2, H3, H4, H5, H6; reflexivity.
Qed.

(** The loop reads the entries of the joints it scans, and no other. *)
Lemma joints_loop_agree (todo : nat) :
  forall (i : nat) (max temp : Z),
    (forall j, (i <= j < i + todo)%nat -> agree_at j) ->
    joints_loop position lo1 up1 lo2 up2 lo3 up3 todo i max temp =
    joints_loop position' lo1' up1' lo2' up2' lo3' up3' todo i max temp.
Proof.
  induction todo as [|todo IH]; intros i max temp Hag; [reflexivity|].
  simpl; rewrite (loop_body_agree i max temp (Hag i ltac:(lia))).
  destruct (loop_body position' lo1' up1' lo2' up2' lo3' up3' i max temp)
    as [[max' temp'|max' temp']|]; simpl; try reflexivity.
  apply IH; intros j Hj; apply Hag; lia.
Qed.

End ClassifierReads.

(** X10: the classifier reads only the entries of the joints below the member
    number_of_joints: cutting the position and the six limit sequences down to
    that many entries does not change its result, whatever their lengths. *)
Theorem checkSingularityLevel_reads_first_joints
    (this : SingularityDetector) (number_of_joints_ : Z)
    (position lo1 up1 lo2 up2 lo3 up3 : list float) :
  checkSingularityLevel this number_of_joints_
    (take (Z.to_nat (number_of_joints this)) position)
    (take (Z.to_nat (number_of_joints this)) lo1)
    (take (Z.to_nat (number_of_joints this)) up1)
    (take (Z.to_nat (number_of_joints this)) lo2)
    (take (Z.to_nat (number_of_joints this)) up2)
    (take (Z.to_nat (number_of_joints this)) lo3)
    (take (Z.to_nat (number_of_joints this)) up3) =
  checkSingularityLevel this number_of_joints_
    position lo1 up1 lo2 up2 lo3 up3.
Proof.
  unfold checkSingularityLevel; apply joints_loop_agree.
  intros j Hj; repeat split; apply lookup_take_lt; lia.
Qed.

Section ClassifierEdges.

Variables position lo1 up1 lo2 up2 lo3 up3 : list float.

Local Abbreviation level_at := (joint_level position lo1 up1 lo2 up2 lo3 up3).
Local Abbreviation scan := (joints_loop position lo1 up1 lo2 up2 lo3 up3).

(** The loop leaves at the first joint of local level 3 that it reaches. *)
Lemma joints_loop_reaches_level_3 (todo : nat) :
  forall (i0 i : nat) (max temp : Z),
    (i0 <= i < i0 + todo)%nat ->
    (forall j, (i0 <= j <= i)%nat -> is_Some (level_at j)) ->
    level_at i = Some 3 ->
    scan todo i0 max temp = Some 3.
Proof.
  induction todo as [|todo IH]; intros i0 i max temp Hi Hall H3; [lia|].
  destruct (Hall i0 ltac:(lia)) as [k Hk].
  simpl; rewrite (loop_body_level _ _ _ _ _ _ _ i0 k max temp Hk); simpl.
  destruct (decide (k = 3)) as [-> | Hne]; [reflexivity|].
  assert (i0 <> i) by congruence.
  apply (IH (S i0) i); [lia| |assumption].
  intros j Hj; apply Hall; lia.
Qed.

(** X11: when some joint below the joint count is inside band 3 and the
    entries of the joints up to it exist, the classifier returns 3, whether or
    not the sequences have entries for the joints after it. *)
Theorem checkSingularityLevel_level_3_joint
    (this : SingularityDetector) (number_of_joints_ : Z) (i : nat) :
  (i < Z.to_nat (number_of_joints this))%nat ->
  (forall j, (j <= i)%nat -> is_Some (level_at j)) ->
  level_at i = Some 3 ->
  checkSingularityLevel this number_of_joints_
    position lo1 up1 lo2 up2 lo3 up3 = Some 3.
Proof.
  intros Hi Hall H3; unfold checkSingularityLevel.
  apply (joints_loop_reaches_level_3 _ 0 i); [lia| |assumption].
  intros j Hj; apply Hall; lia.
Qed.

(** The loop runs past the end of a position vector that is too short when
    no joint before the end is inside band 3. *)
Lemma joints_loop_past_the_end (todo : nat) :
  forall (i : nat) (max temp : Z),
    (i <= length position < i + todo)%nat ->
    (forall j, (i <= j < length position)%nat ->
               exists k, level_at j = Some k /\ k <> 3) ->
    scan todo i max temp = None.
Proof.
  induction todo as [|todo IH]; intros i max temp Hi Hall; [lia|].
  simpl.
  destruct (decide (i = length position)) as [-> | Hne].
  - unfold loop_body, inside.
    rewrite (lookup_ge_None_2 position (length position)) by lia.
    reflexivity.
  - destruct (Hall i ltac:(lia)) as (k & Hk & Hk3).
    rewrite (loop_body_level _ _ _ _ _ _ _ i k max temp Hk); simpl.
    destruct (decide (k = 3)); [contradiction|].
    apply IH; [lia|]; intros j Hj; apply Hall; lia.
Qed.

(** X12: the classifier does not check the length of the position. With six
    limit sequences of the size of the joint count and a position that has
    fewer entries, none of them inside band 3, it reads the position out of
    range. *)
Theorem checkSingularityLevel_short_position
    (this : SingularityDetector) (number_of_joints_ : Z) :
  size lo1 = number_of_joints this -> size up1 = number_of_joints this ->
  size lo2 = number_of_joints this -> size up2 = number_of_joints this ->
  size lo3 = number_of_joints this -> size up3 = number_of_joints this ->
  size position < number_of_joints this ->
  (forall j, (j < length position)%nat -> level_at j <> Some 3) ->
  checkSingularityLevel this number_of_joints_
    position lo1 up1 lo2 up2 lo3 up3 = None.
Proof.
  unfold size; intros H1 H2 H3 H4 H5 H6 Hp Hno3.
  unfold checkSingularityLevel.
  apply joints_loop_past_the_end; [lia|].
  intros j Hj.
  assert (Hlt : forall v : list float,
             Z.of_nat (length v) = number_of_joints this ->
             is_Some (v !! j))
    by (intros v Hv; apply lookup_lt_is_Some; lia).
  destruct (lookup_lt_is_Some_2 position j ltac:(lia)) as [p Ep].
  destruct (Hlt _ H1) as [a1 E1], (Hlt _ H2) as [b1 E2], (Hlt _ H3) as [a2 E3],
    (Hlt _ H4) as [b2 E4], (Hlt _ H5) as [a3 E5], (Hlt _ H6) as [b3 E6].
  exists (local_level p a1 b1 a2 b2 a3 b3); split.
  - unfold joint_level; rewrite Ep, E1, E2, E3, E4, E5, E6; reflexivity.
  - intros Heq; apply (Hno3 j ltac:(lia)).
    unfold joint_level; rewrite Ep, E1, E2, E3, E4, E5, E6; simpl.
    congruence.
Qed.

(** X13: whenever the classifier returns a level, on length-matched input or
    not, the level is 0, 1, 2 or 3. *)
Theorem checkSingularityLevel_level_in_range
    (this : SingularityDetector) (number_of_joints_ level : Z) :
  checkSingularityLevel this number_of_joints_
    position lo1 up1 lo2 up2 lo3 up3 = Some level ->
  level = 0 \/ level = 1 \/ level = 2 \/ level = 3.
Proof.
  intros Hc; apply checkSingularityLevel_range in Hc; lia.
Qed.

(** X14: on length-matched input the level is at least k, for k from 1 to 3,
    exactly when some joint has a local level of at least k; in particular it
    is 0 exactly when every joint is outside its three bands. *)
Theorem checkSingularityLevel_at_least
    (this : SingularityDetector) (number_of_joints_ k : Z) :
  length_matched (number_of_joints this) position lo1 up1 lo2 up2 lo3 up3 ->
  1 <= k ->
  exists level,
    checkSingularityLevel this number_of_joints_
      position lo1 up1 lo2 up2 lo3 up3 = Some level /\
    (k <= level <->
     exists i l, (i < Z.to_nat (number_of_joints this))%nat /\
                 level_at i = Some l /\ k <= l).
Proof.
  intros Hlen Hk.
  destruct (checkSingularityLevel_levels _ _ _ _ _ _ _ this number_of_joints_
              Hlen) as (levels & Hm & Hc).
  destruct (mapM_seq_lookup _ _ _ _ _ _ _ _ _ Hm) as (Hl & Hat).
  exists (foldr Z.max 0 levels); split; [assumption|split].
  - intros Hge.
    assert (Hne : levels <> []) by (intros ->; simpl in Hge; lia).
    assert (Hin : foldr Z.max 0 levels ∈ levels).
    { apply foldr_max_elem; [assumption|].
      apply Forall_forall; intros x Hx.
      apply list_elem_of_lookup in Hx as [ix Hix].
      pose proof (lookup_lt_Some _ _ _ Hix) as Hlt.
      rewrite <- Hat in Hix by lia.
      apply joint_level_range in Hix; lia. }
    apply list_elem_of_lookup in Hin as [i Hi].
    pose proof (lookup_lt_Some _ _ _ Hi) as Hlt.
    exists i, (foldr Z.max 0 levels); repeat split; [lia| |assumption].
    rewrite Hat by lia; assumption.
  - intros (i & l & Hi & Hlev & Hkl).
    rewrite Hat in Hlev by assumption.
    pose proof (foldr_max_ge levels l) as Hge.
    specialize (Hge ltac:(apply list_elem_of_lookup; eauto)); lia.
Qed.

End ClassifierEdges.

(** ** Not-a-number and degenerate bands *)

Module FloatNaN.

Lemma SFcompare_self (a : spec_float) :
  SFcompare a a = Some Eq \/ a = S754_nan.
Proof.
  destruct a as [[]|[]| |[] m e]; simpl; auto;
    rewrite Z.compare_refl, Pos.compare_cont_refl; auto.
Qed.

(** A NaN compares with nothing. *)
Lemma is_nan_ltb (p x : float) :
  is_nan p = true -> (p <? x)%float = false /\ (x <? p)%float = false.
Proof.
  unfold is_nan; rewrite negb_true_iff; intros Hnan.
  assert (Hp : Prim2SF p = S754_nan).
  { destruct (SFcompare_self (Prim2SF p)) as [Heq|Heq]; [|assumption].
    apply FloatOrder.eqb_Eq in Heq; congruence. }
  split; apply not_true_is_false; rewrite FloatOrder.ltb_Lt, Hp.
  - simpl; congruence.
  - destruct (Prim2SF x); simpl; congruence.
Qed.

(** [<] is asymmetric. *)
Lemma ltb_asym (x y : float) :
  (x <? y)%float = true -> (y <? x)%float = false.
Proof.
  intros Hxy; apply not_true_is_false; intros Hyx.
  pose proof (FloatOrder.ltb_leb_trans x y x Hxy) as H.
  rewrite FloatOrder.ltb_irrefl in H.
  assert (Hle : (y <=? x)%float = true); [|specialize (H Hle); discriminate].
  apply FloatOrder.leb_Le; left; apply FloatOrder.ltb_Lt; assumption.
Qed.

(** Nothing lies strictly between [l] and [u] when [u <= l]. *)
Lemma inverted_empty (l p u : float) :
  (u <=? l)%float = true -> (l <? p)%float && (p <? u)%float = false.
Proof.
  intros Hul; apply not_true_is_false; intros [Hlp Hpu]%andb_prop.
  pose proof (FloatOrder.ltb_leb_trans p u l Hpu Hul) as Hpl.
  apply ltb_asym in Hpl; congruence.
Qed.

End FloatNaN.

(** X15: the band test of the classifier fails at joint i whenever the
    position of the joint or one of the band's two limits is a NaN, and
    whenever the band is inverted or empty (upper[i] <= lower[i]): such a band
    is never entered. *)
Theorem inside_degenerate (position upper lower : list float)
    (i : nat) (p u l : float) :
  position !! i = Some p -> upper !! i = Some u -> lower !! i = Some l ->
  is_nan p = true \/ is_nan u = true \/ is_nan l = true \/
  (u <=? l)%float = true ->
  inside position upper lower i = Some false.
Proof.
  intros Hp Hu Hl Hdeg.
  rewrite (inside_lookup position upper lower i p u l Hp Hu Hl).
  f_equal; unfold in_band.
  destruct Hdeg as [H|[H|[H|H]]].
  - apply (FloatNaN.is_nan_ltb p l) in H as [_ ->]; reflexivity.
  - apply (FloatNaN.is_nan_ltb u p) in H as [_ ->]; apply andb_false_r.
  - apply (FloatNaN.is_nan_ltb l p) in H as [-> _]; reflexivity.
  - apply FloatNaN.inverted_empty, H.
Qed.

(** ** Comparing two inputs *)

Section TwoInputs.

Variables position lo1 up1 lo2 up2 lo3 up3 : list float.
Variables position' lo1' up1' lo2' up2' lo3' up3' : list float.

Local Abbreviation level_at :=
  (joint_level position lo1 up1 lo2 up2 lo3 up3).
Local Abbreviation level_at' :=
  (joint_level position' lo1' up1' lo2' up2' lo3' up3').

(** When every local level of the first input is reached by some joint of
    the second, the level of the first is at most the level of the second. *)
Lemma checkSingularityLevel_dominated (this : SingularityDetector)
    (n1 n2 : Z) :
  length_matched (number_of_joints this) position lo1 up1 lo2 up2 lo3 up3 ->
  length_matched (number_of_joints this)
    position' lo1' up1' lo2' up2' lo3' up3' ->
  (forall i k, (i < Z.to_nat (number_of_joints this))%nat ->
               level_at i = Some k ->
               exists j k', (j < Z.to_nat (number_of_joints this))%nat /\
                            level_at' j = Some k' /\ k <= k') ->
  exists l l',
    checkSingularityLevel this n1 position lo1 up1 lo2 up2 lo3 up3 = Some l /\
    checkSingularityLevel this n2 position' lo1' up1' lo2' up2' lo3' up3' =
      Some l' /\
    l <= l'.
Proof.
  intros Hlen Hlen' Hdom.
  destruct (checkSingularityLevel_levels _ _ _ _ _ _ _ this n1 Hlen)
    as (levels & Hm & Hc).
  destruct (checkSingularityLevel_levels _ _ _ _ _ _ _ this n2 Hlen')
    as (levels' & Hm' & Hc').
  destruct (mapM_seq_lookup _ _ _ _ _ _ _ _ _ Hm) as (Hl & Hat).
  destruct (mapM_seq_lookup _ _ _ _ _ _ _ _ _ Hm') as (Hl' & Hat').
  exists (foldr Z.max 0 levels), (foldr Z.max 0 levels').
  split; [assumption|split; [assumption|]].
  apply foldr_max_le; [apply foldr_max_nonneg|].
  apply Forall_forall; intros x Hx.
  apply list_elem_of_lookup in Hx as [i Hi].
  pose proof (lookup_lt_Some _ _ _ Hi) as Hlt.
  rewrite <- Hat in Hi by lia.
  destruct (Hdom i x ltac:(lia) Hi) as (j & k' & Hj & Hk' & Hle).
  rewrite Hat' in Hk' by assumption.
  pose proof (foldr_max_ge levels' k') as Hge.
  specialize (Hge ltac:(apply list_elem_of_lookup; eauto)); lia.
Qed.

End TwoInputs.

(** A wider band contains what the band contains. *)
Lemma in_band_wider (a b a' b' p : float) :
  (a' <=? a)%float = true -> (b <=? b')%float = true ->
  in_band a p b = true -> in_band a' p b' = true.
Proof.
  unfold in_band; intros Ha Hb [H1 H2]%andb_prop; apply andb_true_intro; split.
  - apply (FloatOrder.leb_ltb_trans a' a p); assumption.
  - apply (FloatOrder.ltb_leb_trans p b b'); assumption.
Qed.

Lemma local_level_wider (p a1 b1 a2 b2 a3 b3 a1' b1' a2' b2' a3' b3' : float) :
  (a1' <=? a1)%float = true -> (b1 <=? b1')%float = true ->
  (a2' <=? a2)%float = true -> (b2 <=? b2')%float = true ->
  (a3' <=? a3)%float = true -> (b3 <=? b3')%float = true ->
  local_level p a1 b1 a2 b2 a3 b3 <= local_level p a1' b1' a2' b2' a3' b3'.
Proof.
  intros Ha1 Hb1 Ha2 Hb2 Ha3 Hb3.
  pose proof (in_band_wider a1 b1 a1' b1' p Ha1 Hb1) as H1.
  pose proof (in_band_wider a2 b2 a2' b2' p Ha2 Hb2) as H2.
  pose proof (in_band_wider a3 b3 a3' b3' p Ha3 Hb3) as H3.
  unfold local_level.
  destruct (in_band a3 p b3), (in_band a2 p b2), (in_band a1 p b1);
    rewrite ?H3, ?H2, ?H1 by reflexivity; repeat case_match; lia.
Qed.

(** X16: widening bands never lowers the level. When every lower limit is
    replaced by one that is at most it and every upper limit by one that is at
    least it, the level classified for a length-matched position is at least
    the level classified with the original limits. *)
Theorem widening_bands_never_lowers_level
    (this : SingularityDetector) (n1 n2 : Z)
    (position lo1 up1 lo2 up2 lo3 up3 lo1' up1' lo2' up2' lo3' up3'
       : list float) :
  length_matched (number_of_joints this) position lo1 up1 lo2 up2 lo3 up3 ->
  all_le lo1' lo1 -> all_le up1 up1' ->
  all_le lo2' lo2 -> all_le up2 up2' ->
  all_le lo3' lo3 -> all_le up3 up3' ->
  exists l l',
    checkSingularityLevel this n1 position lo1 up1 lo2 up2 lo3 up3 = Some l /\
    checkSingularityLevel this n2 position lo1' up1' lo2' up2' lo3' up3' =
      Some l' /\
    l <= l'.
Proof.
  intros Hlen G1 G2 G3 G4 G5 G6.
  apply checkSingularityLevel_dominated; [assumption| |].
  - unfold length_matched, size in *.
    rewrite (Forall2_length _ _ _ G1), <- (Forall2_length _ _ _ G2),
      (Forall2_length _ _ _ G3), <- (Forall2_length _ _ _ G4),
      (Forall2_length _ _ _ G5), <- (Forall2_length _ _ _ G6).
    assumption.
  - intros i k Hi Hk; exists i.
    unfold joint_level in Hk |- *.
    destruct (position !! i) as [p|]; simpl in *; [|discriminate].
    destruct (lo1 !! i) as [a1|] eqn:E1; simpl in Hk; [|discriminate].
    destruct (up1 !! i) as [b1|] eqn:E2; simpl in Hk; [|discriminate].
    destruct (lo2 !! i) as [a2|] eqn:E3; simpl in Hk; [|discriminate].
    destruct (up2 !! i) as [b2|] eqn:E4; simpl in Hk; [|discriminate].
    destruct (lo3 !! i) as [a3|] eqn:E5; simpl in Hk; [|discriminate].
    destruct (up3 !! i) as [b3|] eqn:E6; simpl in Hk; [|discriminate].
    injection Hk as <-.
    destruct (Forall2_lookup_r _ _ _ _ _ G1 E1) as (a1' & E1' & L1).
    destruct (Forall2_lookup_l _ _ _ _ _ G2 E2) as (b1' & E2' & L2).
    destruct (Forall2_lookup_r _ _ _ _ _ G3 E3) as (a2' & E3' & L3).
    destruct (Forall2_lookup_l _ _ _ _ _ G4 E4) as (b2' & E4' & L4).
    destruct (Forall2_lookup_r _ _ _ _ _ G5 E5) as (a3' & E5' & L5).
    destruct (Forall2_lookup_l _ _ _ _ _ G6 E6) as (b3' & E6' & L6).
    rewrite E1', E2', E3', E4', E5', E6'; simpl.
    eexists; split; [assumption|split; [reflexivity|]].
    apply local_level_wider; assumption.
Qed.

(** ** One joint more, and the order of the joints *)

Lemma mapM_snoc {A B : Type} (f : A -> option B) (l : list A) (x : A)
    (ks : list B) (k : B) :
  mapM f l = Some ks -> f x = Some k -> mapM f (l ++ [x]) = Some (ks ++ [k]).
Proof.
  revert ks; induction l as [|y l IH]; simpl; intros ks Hm Hx.
  - injection Hm as <-; rewrite Hx; reflexivity.
  - destruct (f y) as [b|]; simpl in *; [|discriminate].
    destruct (mapM f l) as [ks'|]; simpl in *; [|discriminate].
    injection Hm as <-; rewrite (IH ks' eq_refl Hx); reflexivity.
Qed.

Lemma foldr_max_snoc (l : list Z) (k : Z) :
  0 <= k -> foldr Z.max 0 (l ++ [k]) = Z.max (foldr Z.max 0 l) k.
Proof.
  intros Hk; induction l as [|x l IH]; simpl; [lia|rewrite IH; lia].
Qed.

(** X17: the level of n + 1 joints is the larger of the level of the first n
    joints and the local level of joint n. On sequences with n + 1 entries,
    an object whose member number_of_joints is n + 1 returns the maximum of
    what an object with member n returns and of the local level of the last
    joint. *)
Theorem checkSingularityLevel_one_more_joint
    (this1 this2 : SingularityDetector) (n1 n2 : Z)
    (position lo1 up1 lo2 up2 lo3 up3 : list float) :
  0 <= number_of_joints this1 ->
  number_of_joints this2 = number_of_joints this1 + 1 ->
  length_matched (number_of_joints this2) position lo1 up1 lo2 up2 lo3 up3 ->
  exists l k,
    checkSingularityLevel this1 n1 position lo1 up1 lo2 up2 lo3 up3 = Some l /\
    joint_level position lo1 up1 lo2 up2 lo3 up3
      (Z.to_nat (number_of_joints this1)) = Some k /\
    checkSingularityLevel this2 n2 position lo1 up1 lo2 up2 lo3 up3 =
      Some (Z.max l k).
Proof.
  intros Hn Hn2 Hlen.
  assert (Hsome : forall j, (j < S (Z.to_nat (number_of_joints this1)))%nat ->
            is_Some (joint_level position lo1 up1 lo2 up2 lo3 up3 j)).
  { intros j Hj.
    apply (joint_level_is_Some _ _ _ _ _ _ _ (number_of_joints this2));
      [assumption|lia]. }
  destruct (joints_loop_max position lo1 up1 lo2 up2 lo3 up3
              (Z.to_nat (number_of_joints this1)) 0 0 0 ltac:(lia))
    as (levels & Hm & Hs).
  { intros j Hj; apply Hsome; lia. }
  destruct (Hsome (Z.to_nat (number_of_joints this1)) ltac:(lia)) as [k Hk].
  pose proof (joint_level_range _ _ _ _ _ _ _ _ _ Hk) as Hkr.
  destruct (joints_loop_max position lo1 up1 lo2 up2 lo3 up3
              (S (Z.to_nat (number_of_joints this1))) 0 0 0 ltac:(lia))
    as (levels2 & Hm2 & Hs2).
  { intros j Hj; apply Hsome; lia. }
  rewrite seq_S in Hm2; simpl in Hm2.
  rewrite (mapM_snoc _ _ _ _ _ Hm Hk) in Hm2; injection Hm2 as <-.
  exists (foldr Z.max 0 levels), k; split; [|split; [assumption|]].
  - unfold checkSingularityLevel; rewrite Hs; f_equal.
    pose proof (foldr_max_nonneg levels); lia.
  - unfold checkSingularityLevel.
    replace (Z.to_nat (number_of_joints this2))
      with (S (Z.to_nat (number_of_joints this1))) by lia.
    rewrite Hs2, foldr_max_snoc by lia; f_equal.
    pose proof (foldr_max_nonneg levels); lia.
Qed.

(** X18: the level does not depend on the order of the joints. When the
    position and the six limit sequences are reordered in the same way (entry
    i of each new sequence is entry f i of the old one, f mapping the joints
    onto the joints), the classifier returns the same level. *)
Theorem reordering_joints_keeps_level
    (this : SingularityDetector) (n1 n2 : Z) (f : nat -> nat)
    (position lo1 up1 lo2 up2 lo3 up3 : list float)
    (position' lo1' up1' lo2' up2' lo3' up3' : list float) :
  length_matched (number_of_joints this) position lo1 up1 lo2 up2 lo3 up3 ->
  length_matched (number_of_joints this)
    position' lo1' up1' lo2' up2' lo3' up3' ->
  (forall i, (i < Z.to_nat (number_of_joints this))%nat ->
             (f i < Z.to_nat (number_of_joints this))%nat) ->
  (forall j, (j < Z.to_nat (number_of_joints this))%nat ->
             exists i, (i < Z.to_nat (number_of_joints this))%nat /\ f i = j) ->
  (forall i, (i < Z.to_nat (number_of_joints this))%nat ->
             position' !! i = position !! f i /\
             lo1' !! i = lo1 !! f i /\ up1' !! i = up1 !! f i /\
             lo2' !! i = lo2 !! f i /\ up2' !! i = up2 !! f i /\
             lo3' !! i = lo3 !! f i /\ up3' !! i = up3 !! f i) ->
  checkSingularityLevel this n1 position' lo1' up1' lo2' up2' lo3' up3' =
  checkSingularityLevel this n2 position lo1 up1 lo2 up2 lo3 up3.
Proof.
  intros Hlen Hlen' Hinto Honto Hsame.
  assert (Hlev : forall i, (i < Z.to_nat (number_of_joints this))%nat ->
            joint_level position' lo1' up1' lo2' up2' lo3' up3' i =
            joint_level position lo1 up1 lo2 up2 lo3 up3 (f i)).
  { intros i Hi; destruct (Hsame i Hi) as (Hp & H1 & H2 & H3 & H4 & H5 & H6).
    unfold joint_level; rewrite Hp, H1, H2, H3, H4, H5, H6; reflexivity. }
  destruct (checkSingularityLevel_dominated
              position lo1 up1 lo2 up2 lo3 up3
              position' lo1' up1' lo2' up2' lo3' up3' this n2 n1 Hlen Hlen')
    as (l & l' & Hc & Hc' & Hle).
  { intros j k Hj Hk; destruct (Honto j Hj) as (i & Hi & <-).
    exists i, k; rewrite (Hlev i Hi); repeat split; [assumption|assumption|lia]. }
  destruct (checkSingularityLevel_dominated
              position' lo1' up1' lo2' up2' lo3' up3'
              position lo1 up1 lo2 up2 lo3 up3 this n1 n2 Hlen' Hlen)
    as (m' & m & Hd' & Hd & Hge).
  { intros i k Hi Hk; exists (f i), k; rewrite <- (Hlev i Hi).
    repeat split; [apply Hinto; assumption|assumption|lia]. }
  rewrite Hc, Hc'; f_equal; simplify_eq; lia.
Qed.

(** X19: a position that is a NaN at every joint is classified as level 0 on
    length-matched input, and replacing the position of any joint by a NaN
    never raises the level. *)
Theorem nan_position_is_outside
    (this : SingularityDetector) (n1 n2 : Z)
    (position lo1 up1 lo2 up2 lo3 up3 : list float) (i : nat) (q : float) :
  length_matched (number_of_joints this) position lo1 up1 lo2 up2 lo3 up3 ->
  is_nan q = true ->
  exists l l',
    checkSingularityLevel this n1 (<[i := q]> position)
      lo1 up1 lo2 up2 lo3 up3 = Some l /\
    checkSingularityLevel this n2 position lo1 up1 lo2 up2 lo3 up3 = Some l' /\
    l <= l' /\
    (Forall (fun p => is_nan p = true) position -> l' = 0).
Proof.
  intros Hlen Hnan.
  assert (Hzero : forall p a1 b1 a2 b2 a3 b3,
             is_nan p = true -> local_level p a1 b1 a2 b2 a3 b3 = 0).
  { intros p a1 b1 a2 b2 a3 b3 Hp; unfold local_level, in_band.
    destruct (FloatNaN.is_nan_ltb p a3 Hp) as [_ ->].
    destruct (FloatNaN.is_nan_ltb p a2 Hp) as [_ ->].
    destruct (FloatNaN.is_nan_ltb p a1 Hp) as [_ ->].
    reflexivity. }
  assert (Hlen' : length_matched (number_of_joints this) (<[i := q]> position)
                    lo1 up1 lo2 up2 lo3 up3).
  { unfold length_matched, size in *; rewrite length_insert; assumption. }
  destruct (checkSingularityLevel_dominated
              (<[i := q]> position) lo1 up1 lo2 up2 lo3 up3
              position lo1 up1 lo2 up2 lo3 up3 this n1 n2 Hlen' Hlen)
    as (l & l' & Hc & Hc' & Hle).
  { intros j k Hj Hk.
    destruct (joint_level_is_Some position lo1 up1 lo2 up2 lo3 up3
                (number_of_joints this) j Hlen Hj) as [k' Hk'].
    exists j, k'; split; [assumption|split; [assumption|]].
    destruct (decide (i = j)) as [<- | Hne].
    - pose proof (joint_level_range _ _ _ _ _ _ _ _ _ Hk').
      unfold joint_level in Hk.
      rewrite list_lookup_insert_eq in Hk.
      + simplify_option_eq; rewrite Hzero by assumption; lia.
      + destruct Hlen as [Hp _]; unfold size in Hp; lia.
    - unfold joint_level in Hk, Hk'.
      rewrite list_lookup_insert_ne in Hk by assumption.
      rewrite Hk in Hk'; simplify_eq; lia. }
  exists l, l'; repeat split; try assumption.
  intros Hall.
  destruct (checkSingularityLevel_levels _ _ _ _ _ _ _ this n2 Hlen)
    as (levels & Hm & Hcl).
  destruct (mapM_seq_lookup _ _ _ _ _ _ _ _ _ Hm) as (Hl & Hat).
  rewrite Hcl in Hc'; injection Hc' as <-.
  assert (foldr Z.max 0 levels <= 0); [|pose proof (foldr_max_nonneg levels); lia].
  apply foldr_max_le; [lia|].
  apply Forall_forall; intros x Hx.
  apply list_elem_of_lookup in Hx as [j Hj].
  pose proof (lookup_lt_Some _ _ _ Hj) as Hlt.
  rewrite <- Hat in Hj by lia.
  unfold joint_level in Hj.
  destruct (position !! j) as [p|] eqn:Ep; simpl in Hj; [|discriminate].
  assert (Hp : is_nan p = true).
  { rewrite Forall_forall in Hall; apply Hall.
    apply list_elem_of_lookup; eauto. }
  simplify_option_eq; rewrite Hzero by assumption; lia.
Qed.

(** ** Nested bands *)

(** X20: at a joint whose bands are nested, the local level found by the loop
    body counts the bands that contain the position: it is at least 1 exactly
    when the test of band 1 holds, at least 2 exactly when the test of band 2
    holds, and 3 exactly when the test of band 3 holds. *)
Theorem nested_bands_level_counts
    (position lo1 up1 lo2 up2 lo3 up3 : list float)
    (i : nat) (p a1 b1 a2 b2 a3 b3 : float) (max temp : Z) (s : Step) :
  position !! i = Some p ->
  lo1 !! i = Some a1 -> up1 !! i = Some b1 ->
  lo2 !! i = Some a2 -> up2 !! i = Some b2 ->
  lo3 !! i = Some a3 -> up3 !! i = Some b3 ->
  nested a1 b1 a2 b2 a3 b3 ->
  loop_body position lo1 up1 lo2 up2 lo3 up3 i max temp = Some s ->
  (1 <= temp_of s <-> inside position up1 lo1 i = Some true) /\
  (2 <= temp_of s <-> inside position up2 lo2 i = Some true) /\
  (temp_of s = 3 <-> inside position up3 lo3 i = Some true).
Proof.
  intros Hp E1 E2 E3 E4 E5 E6 (Ha12 & Ha23 & Hb32 & Hb21).
  rewrite (inside_lookup position up1 lo1 i p b1 a1),
    (inside_lookup position up2 lo2 i p b2 a2),
    (inside_lookup position up3 lo3 i p b3 a3) by assumption.
  rewrite (loop_body_level position lo1 up1 lo2 up2 lo3 up3 i
             (local_level p a1 b1 a2 b2 a3 b3) max temp)
    by (unfold joint_level; rewrite Hp, E1, E2, E3, E4, E5, E6; reflexivity).
  pose proof (in_band_wider a3 b3 a2 b2 p Ha23 Hb32) as H32.
  pose proof (in_band_wider a2 b2 a1 b1 p Ha12 Hb21) as H21.
  unfold local_level.
  destruct (in_band a3 p b3), (in_band a2 p b2), (in_band a1 p b1);
    try (specialize (H32 eq_refl); discriminate);
    try (specialize (H21 eq_refl); discriminate);
    simpl; intros [= <-]; simpl;
    repeat split; intros; try lia; try congruence; try discriminate.
Qed.

(** ** The further properties at concrete inputs *)

Lemma checkAllLimitsSize_nonpositive_witness :
  (checkAllLimitsSize (-1) [] [] [] [] [] []).1 = true <->
  -1 = 0 /\
  @nil float = [] /\ @nil float = [] /\ @nil float = [] /\
  @nil float = [] /\ @nil float = [] /\ @nil float = [].
Proof.
  apply (checkAllLimitsSize_nonpositive (-1) [] [] [] [] [] []).
  - unfold int_range; lia.
  - lia.
  - unfold size; simpl; lia.
Defined.

Lemma configureHook_failure_keeps_object_witness :
  (configureHook (Examples.detector 0)).1.2 = Examples.detector 0.
Proof.
  apply (configureHook_failure_keeps_object (Examples.detector 0)).
  reflexivity.
Defined.

Lemma configureHook_success_state_witness :
  same_configuration (Examples.detector 2)
    (configureHook (Examples.detector 2)).1.2 /\
  singularity_scaling (configureHook (Examples.detector 2)).1.2 = 1 /\
  (configureHook (Examples.detector 2)).2 = [] /\
  length_matched 2
    (joint_position (configureHook (Examples.detector 2)).1.2)
    (l1_lower (configureHook (Examples.detector 2)).1.2)
    (l1_upper (configureHook (Examples.detector 2)).1.2)
    (l2_lower (configureHook (Examples.detector 2)).1.2)
    (l2_upper (configureHook (Examples.detector 2)).1.2)
    (l3_lower (configureHook (Examples.detector 2)).1.2)
    (l3_upper (configureHook (Examples.detector 2)).1.2).
Proof.
  apply (configureHook_success_state (Examples.detector 2)).
  - unfold int_range; simpl; lia.
  - reflexivity.
Defined.

Lemma configureHook_idempotent_witness :
  configureHook (configureHook (Examples.detector 2)).1.2 =
    (true, (configureHook (Examples.detector 2)).1.2, []).
Proof.
  apply (configureHook_idempotent (Examples.detector 2)); reflexivity.
Defined.

Lemma configureHook_after_constructor_witness :
  configureHook (SingularityDetector_ctor 2) =
    (false, SingularityDetector_ctor 2,
     [{| log_index := 0; log_bound := Lower; log_size := 0;
         log_expected := 2 |}]).
Proof.
  apply (configureHook_after_constructor 2); unfold int_range; lia.
Defined.

Lemma cycles_keep_configuration_witness :
  same_configuration (Examples.detector 2)
    (set_singularity_scaling
       (set_joint_position (Examples.detector 2) Examples.position02) 3) /\
  length [3; 3] = length [ReadNewData Examples.position02; ReadNoData].
Proof.
  apply (cycles_keep_configuration
           [ReadNewData Examples.position02; ReadNoData]
           (Examples.detector 2)).
  reflexivity.
Defined.

Lemma cycles_scaling_in_range_witness :
  1 <= 3 <= 4 /\
  Forall (fun m => 1 <= m <= 4) [3; 3] /\
  ([ReadNewData Examples.position02; ReadNoData] <> [] ->
   last [3; 3] = Some 3).
Proof.
  apply (cycles_scaling_in_range
           [ReadNewData Examples.position02; ReadNoData]
           (Examples.detector 2)
           (set_singularity_scaling
              (set_joint_position (Examples.detector 2) Examples.position02)
              3)).
  - simpl; lia.
  - reflexivity.
Defined.

Lemma configured_cycles_are_safe_witness :
  exists (this' : SingularityDetector) (outs : list Z),
    cycles (configureHook (Examples.detector 2)).1.2
      [ReadNewData Examples.position02; ReadNoData; ReadOldData [1]%float] =
      Some (this', outs) /\
    length outs = 3%nat /\
    Forall (fun m => 1 <= m <= 4) outs.
Proof.
  apply (configured_cycles_are_safe (Examples.detector 2)
           [ReadNewData Examples.position02; ReadNoData;
            ReadOldData [1]%float]).
  - unfold int_range; simpl; lia.
  - reflexivity.
  - repeat constructor.
Defined.

Lemma checkSingularityLevel_level_3_joint_witness :
  checkSingularityLevel (Examples.detector 5) 5 Examples.position03
    Examples.lo1 Examples.up1 Examples.lo2 Examples.up2
    Examples.lo3 Examples.up3 = Some 3.
Proof.
  apply (checkSingularityLevel_level_3_joint Examples.position03
           Examples.lo1 Examples.up1 Examples.lo2 Examples.up2
           Examples.lo3 Examples.up3 (Examples.detector 5) 5 1%nat).
  - simpl; lia.
  - intros j Hj; destruct j as [|[|j]]; [eexists; reflexivity ..|lia].
  - reflexivity.
Defined.

Lemma checkSingularityLevel_short_position_witness :
  checkSingularityLevel (Examples.detector 2) 2 [5]%float
    Examples.lo1 Examples.up1 Examples.lo2 Examples.up2
    Examples.lo3 Examples.up3 = None.
Proof.
  apply (checkSingularityLevel_short_position [5]%float
           Examples.lo1 Examples.up1 Examples.lo2 Examples.up2
           Examples.lo3 Examples.up3 (Examples.detector 2) 2);
    try reflexivity.
  intros j Hj; destruct j as [|j]; [discriminate|simpl in Hj; lia].
Defined.

Lemma checkSingularityLevel_level_in_range_witness :
  3 = 0 \/ 3 = 1 \/ 3 = 2 \/ 3 = 3.
Proof.
  apply (checkSingularityLevel_level_in_range Examples.position03
           Examples.lo1 Examples.up1 Examples.lo2 Examples.up2
           Examples.lo3 Examples.up3 (Examples.detector 2) 2 3).
  reflexivity.
Defined.

Lemma checkSingularityLevel_at_least_witness :
  exists level,
    checkSingularityLevel (Examples.detector 2) 2 Examples.position03
      Examples.lo1 Examples.up1 Examples.lo2 Examples.up2
      Examples.lo3 Examples.up3 = Some level /\
    (2 <= level <->
     exists i l, (i < 2)%nat /\
                 joint_level Examples.position03
                   Examples.lo1 Examples.up1 Examples.lo2 Examples.up2
                   Examples.lo3 Examples.up3 i = Some l /\ 2 <= l).
Proof.
  apply (checkSingularityLevel_at_least Examples.position03
           Examples.lo1 Examples.up1 Examples.lo2 Examples.up2
           Examples.lo3 Examples.up3 (Examples.detector 2) 2 2).
  - unfold length_matched; repeat split; reflexivity.
  - lia.
Defined.

Lemma inside_degenerate_witness :
  inside [nan] [1]%float [0]%float 0 = Some false.
Proof.
  apply (inside_degenerate [nan] [1]%float [0]%float 0%nat nan 1%float
           0%float eq_refl eq_refl eq_refl).
  left; reflexivity.
Defined.

Lemma widening_bands_never_lowers_level_witness :
  exists l l',
    checkSingularityLevel (Examples.detector 2) 2 Examples.position02
      Examples.lo1 Examples.up1 Examples.lo2 Examples.up2
      Examples.lo3 Examples.up3 = Some l /\
    checkSingularityLevel (Examples.detector 2) 2 Examples.position02
      Examples.lo1 Examples.up1 Examples.lo2 Examples.up2
      Examples.lo2 Examples.up2 = Some l' /\
    l <= l'.
Proof.
  apply (widening_bands_never_lowers_level (Examples.detector 2) 2 2
           Examples.position02
           Examples.lo1 Examples.up1 Examples.lo2 Examples.up2
           Examples.lo3 Examples.up3
           Examples.lo1 Examples.up1 Examples.lo2 Examples.up2
           Examples.lo2 Examples.up2).
  - unfold length_matched; repeat split; reflexivity.
  - repeat constructor.
  - repeat constructor.
  - repeat constructor.
  - repeat constructor.
  - repeat constructor.
  - repeat constructor.
Defined.

Lemma checkSingularityLevel_one_more_joint_witness :
  exists l k,
    checkSingularityLevel (Examples.detector 1) 1 Examples.position03
      Examples.lo1 Examples.up1 Examples.lo2 Examples.up2
      Examples.lo3 Examples.up3 = Some l /\
    joint_level Examples.position03
      Examples.lo1 Examples.up1 Examples.lo2 Examples.up2
      Examples.lo3 Examples.up3 1 = Some k /\
    checkSingularityLevel (Examples.detector 2) 2 Examples.position03
      Examples.lo1 Examples.up1 Examples.lo2 Examples.up2
      Examples.lo3 Examples.up3 = Some (Z.max l k).
Proof.
  apply (checkSingularityLevel_one_more_joint
           (Examples.detector 1) (Examples.detector 2) 1 2
           Examples.position03
           Examples.lo1 Examples.up1 Examples.lo2 Examples.up2
           Examples.lo3 Examples.up3).
  - simpl; lia.
  - reflexivity.
  - unfold length_matched; repeat split; reflexivity.
Defined.

Lemma reordering_joints_keeps_level_witness :
  checkSingularityLevel (Examples.detector 2) 2 [0; 5]%float
    Examples.lo1 Examples.up1 Examples.lo2 Examples.up2
    Examples.lo3 Examples.up3 =
  checkSingularityLevel (Examples.detector 2) 2 Examples.position03
    Examples.lo1 Examples.up1 Examples.lo2 Examples.up2
    Examples.lo3 Examples.up3.
Proof.
  apply (reordering_joints_keeps_level (Examples.detector 2) 2 2
           (fun i => (1 - i)%nat)).
  - unfold length_matched; repeat split; reflexivity.
  - unfold length_matched; repeat split; reflexivity.
  - simpl; intros i Hi; lia.
  - simpl; intros j Hj; exists (1 - j)%nat; lia.
  - simpl; intros i Hi; destruct i as [|[|i]];
      [repeat split; reflexivity ..|lia].
Defined.

Lemma nan_position_is_outside_witness :
  exists l l',
    checkSingularityLevel (Examples.detector 2) 2
      (<[1%nat := nan]> Examples.position03)
      Examples.lo1 Examples.up1 Examples.lo2 Examples.up2
      Examples.lo3 Examples.up3 = Some l /\
    checkSingularityLevel (Examples.detector 2) 2 Examples.position03
      Examples.lo1 Examples.up1 Examples.lo2 Examples.up2
      Examples.lo3 Examples.up3 = Some l' /\
    l <= l' /\
    (Forall (fun p => is_nan p = true) Examples.position03 -> l' = 0).
Proof.
  apply (nan_position_is_outside (Examples.detector 2) 2 2
           Examples.position03
           Examples.lo1 Examples.up1 Examples.lo2 Examples.up2
           Examples.lo3 Examples.up3 1%nat nan).
  - unfold length_matched; repeat split; reflexivity.
  - reflexivity.
Defined.

Lemma nested_bands_level_counts_witness :
  (1 <= 3 <-> inside Examples.position03 Examples.up1 Examples.lo1 1 =
              Some true) /\
  (2 <= 3 <-> inside Examples.position03 Examples.up2 Examples.lo2 1 =
              Some true) /\
  (3 = 3 <-> inside Examples.position03 Examples.up3 Examples.lo3 1 =
             Some true).
Proof.
  apply (nested_bands_level_counts Examples.position03
           Examples.lo1 Examples.up1 Examples.lo2 Examples.up2
           Examples.lo3 Examples.up3 1%nat 0%float
           (-3)%float 3%float (-2)%float 2%float (-1)%float 1%float
           0 0 (Break 3 3));
    try reflexivity.
  unfold nested; repeat split; reflexivity.
Defined.
